(** * The USDC paymaster demo: permit signing, paymaster payload, user operation

    A shallow embedding of the React component [PaymasterDemo] (the page of
    the paymaster demo): its handlers [setupAccount], [signPermit] and
    [sendTransaction], the hook [estimateFeesPerGas] it hands to the bundler
    client, and the parts of viem the handlers compute with.

    Conventions.
    - A viem [Hex] value (a string "0x..." naming a byte string) is kept as
      the bytes it names; addresses are [Hex] values of 20 bytes.  Where the
      component prints one, [Viem.showHex] spells it in lower case.
    - A JavaScript [bigint] is a [Z]; [toString] is its decimal spelling.
    - An awaited call either yields a value or throws; a handler is a
      function from the component state to a result, the new component state
      and the requests it sent to the outside, in order. *)

From Stdlib Require Import ZArith NArith List String Ascii Bool Lia.
From Stdlib Require Import Init.Byte Strings.Byte DecimalString.
Import ListNotations.
Local Open Scope string_scope.
Local Open Scope Z_scope.

(** ** JavaScript values the component handles *)

Module Js.

(** What a [catch] clause can receive: an [Error] object (its class name and
    its message) or any other thrown value. *)
Inductive Thrown : Type :=
| JsError (name message : string)
| NonError (shown : string).

Inductive Result (A : Type) : Type :=
| Ok (a : A)
| Err (e : Thrown).
Arguments Ok {A} a.
Arguments Err {A} e.

Definition bindR {A B} (r : Result A) (k : A -> Result B) : Result B :=
  match r with
  | Ok a => k a
  | Err e => Err e
  end.

(** [error instanceof Error ? error.message : 'Unknown error'] *)
Definition errorMsg (error : Thrown) : string :=
  match error with
  | JsError _ message => message
  | NonError _ => "Unknown error"
  end.

(** [bigint.prototype.toString()]: decimal digits, a leading minus sign for
    negative values. *)
Definition toString (n : Z) : string :=
  NilZero.string_of_int (Z.to_int n).

(** Truthiness of a string: every string but the empty one. *)
Definition truthy (s : string) : bool :=
  match s with
  | EmptyString => false
  | String _ _ => true
  end.

(** [maxUint256] of viem: [2n ** 256n - 1n]. *)
Definition maxUint256 : Z := 2 ^ 256 - 1.

End Js.
Import Js.

(** ** The parts of viem the component computes with *)

Module Viem.

Definition Hex : Type := list byte.
Definition Address : Type := Hex.

Definition byteOfN (n : N) : byte :=
  match Byte.of_N n with
  | Some b => b
  | None => x00
  end.

Definition nibbleOf (c : ascii) : option N :=
  let n := N_of_ascii c in
  if (48 <=? n)%N && (n <=? 57)%N then Some (n - 48)%N
  else if (97 <=? n)%N && (n <=? 102)%N then Some (n - 87)%N
  else if (65 <=? n)%N && (n <=? 70)%N then Some (n - 55)%N
  else None.

(** Reads the digits of a hex literal (either case), two per byte. *)
Fixpoint hexDigits (s : string) : option Hex :=
  match s with
  | EmptyString => Some []
  | String hi (String lo rest) =>
      match nibbleOf hi, nibbleOf lo, hexDigits rest with
      | Some h, Some l, Some bs => Some (byteOfN (16 * h + l) :: bs)
      | _, _, _ => None
      end
  | String _ EmptyString => None
  end.

(** The bytes of the literal ['0x<digits>']; a malformed literal names no
    bytes. *)
Definition hex (digits : string) : Hex :=
  match hexDigits digits with
  | Some bs => bs
  | None => []
  end.

Definition digitChar (n : N) : ascii :=
  if (n <? 10)%N then ascii_of_N (48 + n) else ascii_of_N (87 + n).

(** The lower-case spelling ['0x...'] of a byte string. *)
Fixpoint showDigits (h : Hex) : string :=
  match h with
  | [] => EmptyString
  | b :: rest =>
      String (digitChar (Byte.to_N b / 16))
        (String (digitChar (Byte.to_N b mod 16)) (showDigits rest))
  end.

Definition showHex (h : Hex) : string := "0x" ++ showDigits h.

(** [size(hex)]: the number of bytes. *)
Definition size (h : Hex) : nat := List.length h.

(** [slice(hex, start, end)]: the bytes from [start] up to [end_]. *)
Definition slice (h : Hex) (start end_ : nat) : Hex :=
  firstn (end_ - start) (skipn start h).

(** [hexToBigInt(hex)]: the bytes read as a big-endian natural number. *)
Definition hexToBigInt (h : Hex) : Z :=
  fold_left (fun acc b => 256 * acc + Z.of_N (Byte.to_N b)) h 0.

(** The [size] low bytes of [v], most significant first. *)
Fixpoint bigEndian (size : nat) (v : N) : Hex :=
  match size with
  | O => []
  | S k => (bigEndian k (v / 256) ++ [byteOfN (v mod 256)])%list
  end.

Definition IntegerOutOfRangeError : Thrown :=
  JsError "IntegerOutOfRangeError" "Number is not in safe unsigned integer range".
Definition InvalidAddressError : Thrown :=
  JsError "InvalidAddressError" "Address is invalid.".
Definition AbiEncodingLengthMismatchError : Thrown :=
  JsError "AbiEncodingLengthMismatchError" "ABI encoding params/values length mismatch.".
Definition InvalidTypeError : Thrown :=
  JsError "UnsupportedPackedAbiType" "Type is not a valid packed ABI type.".

(** [numberToHex(value, { size })], unsigned: [value] left-padded to [size]
    bytes; a value outside [0 .. 2^(8*size) - 1] is refused. *)
Definition numberToHex (value : Z) (size : nat) : Result Hex :=
  let maxValue := 2 ^ (8 * Z.of_nat size) - 1 in
  if (maxValue <? value) || (value <? 0)
  then Err IntegerOutOfRangeError
  else Ok (bigEndian size (Z.to_N value)).

(** [isAddress]: twenty bytes.  (The check of the mixed-case checksum of the
    spelling has no counterpart on bytes.) *)
Definition isAddress (a : Hex) : bool := Nat.eqb (List.length a) 20.

(** The packed ABI types the component uses. *)
Inductive PackedType : Type :=
| Tuint (bits : nat)
| Taddress
| Tbytes.

Inductive PackedValue : Type :=
| Num (n : Z)
| HexValue (h : Hex).

(** [encode(type, value)] of [encodePacked], outside arrays. *)
Definition encode (type : PackedType) (value : PackedValue) : Result Hex :=
  match type, value with
  | Taddress, HexValue a =>
      if isAddress a then Ok a else Err InvalidAddressError
  | Tbytes, HexValue h => Ok h
  | Tuint bits, Num n => numberToHex n (bits / 8)
  | _, _ => Err InvalidTypeError
  end.

Fixpoint encodeEach (types : list PackedType) (values : list PackedValue)
  : Result (list Hex) :=
  match types, values with
  | t :: types', v :: values' =>
      bindR (encode t v) (fun h =>
      bindR (encodeEach types' values') (fun hs => Ok (h :: hs)))
  | _, _ => Ok []
  end.

(** [encodePacked(types, values)]: each value encoded in place, without
    padding and without a length, and the pieces concatenated. *)
Definition encodePacked (types : list PackedType) (values : list PackedValue)
  : Result Hex :=
  if negb (Nat.eqb (List.length types) (List.length values))
  then Err AbiEncodingLengthMismatchError
  else bindR (encodeEach types values) (fun hs => Ok (List.concat hs)).

(** [fraction.replace(/(0+)$/, '')] *)
Fixpoint dropTrailingZeros (s : string) : string :=
  match s with
  | EmptyString => EmptyString
  | String c rest =>
      match dropTrailingZeros rest with
      | EmptyString => if Ascii.eqb c "0" then EmptyString else String c EmptyString
      | rest' => String c rest'
      end
  end.

(** [s.padStart(n, '0')] *)
Definition padStartZeros (n : nat) (s : string) : string :=
  string_of_list_ascii (repeat "0"%char (n - String.length s)) ++ s.

(** [formatUnits(value, decimals)] *)
Definition formatUnits (value : Z) (decimals : nat) : string :=
  let display := toString value in
  let negative := String.prefix "-" display in
  let display :=
    if negative then substring 1 (String.length display - 1) display
    else display in
  let display := padStartZeros decimals display in
  let integer := substring 0 (String.length display - decimals) display in
  let fraction :=
    dropTrailingZeros
      (substring (String.length display - decimals) decimals display) in
  (if negative then "-" else "")
  ++ (if truthy integer then integer else "0")
  ++ (if truthy fraction then "." ++ fraction else "").

End Viem.
Import Viem.


(** ** Constants and data of the component *)

Definition PAYMASTER_V08_ADDRESS : Address :=
  hex "3BA9A96eE3eFf3A69E2B18886AcF52027EFF8966".
Definition USDC_ADDRESS : Address :=
  hex "75faf114eafb1BDbe2F0316DF893fd58CE46AA4d".

(** [Status['type']] *)
Inductive StatusType : Type := st_info | st_success | st_error.

Record Status : Type := { status_type : StatusType; status_message : string }.

(** [LogEntry['type']] *)
Inductive LogType : Type := info | success | error | warning.

(** A log entry.  Its [id] and [timestamp] are read off the clock when the
    entry is made and say nothing but the time; the list order is the order
    of appending. *)
Record LogEntry : Type := { log_type : LogType; log_message : string }.

Record Chain : Type := { id : Z; chain_name : string }.

(** [arbitrumSepolia] of viem/chains. *)
Definition arbitrumSepolia : Chain :=
  {| id := 421614; chain_name := "Arbitrum Sepolia" |}.

(** A wallet client: what [getAddresses()] answers. *)
Record WalletClient : Type := { getAddresses : Result (list Address) }.

(** A public client: its chain and the contract reads it answers, per
    contract address. *)
Record PublicClient : Type := {
  client_chain : Chain;
  read_name : Address -> Result string;
  read_version : Address -> Result string;
  read_nonces : Address -> Address -> Result Z
}.

(** The EIP-712 domain and the Permit message, as [signPermit] builds them. *)
Record Domain : Type := {
  name : string;
  version : string;
  chainId : Z;
  verifyingContract : Address
}.

Record PermitMessage : Type := {
  owner : Address;
  spender : Address;
  value : string;
  nonce : string;
  deadline : string
}.

Record Field : Type := { field_name : string; field_type : string }.

Record TypedData : Type := {
  primaryType : string;
  domain : Domain;
  types : list (string * list Field);
  message : PermitMessage
}.

(** A smart account of the delegation toolkit: its address and its
    [signTypedData] method. *)
Record SmartAccount : Type := {
  sa_address : Address;
  signTypedData : TypedData -> Result Hex
}.

(** [Implementation] of the delegation toolkit. *)
Inductive Implementation : Type := MultiSig | Hybrid | Stateless7702.

Definition showImplementation (i : Implementation) : string :=
  match i with
  | MultiSig => "MultiSig"
  | Hybrid => "Hybrid"
  | Stateless7702 => "Stateless7702"
  end.

(** The deployment parameters of a Hybrid account:
    [[owner, keyIds, xValues, yValues]].  The owner is [addresses[0]], which
    is [undefined] when the wallet lists no address. *)
Record DeployParams : Type := {
  dp_owner : option Address;
  dp_keyIds : list string;
  dp_xValues : list Z;
  dp_yValues : list Z
}.

Record SmartAccountParameters : Type := {
  p_client : PublicClient;
  p_implementation : Implementation;
  p_deployParams : DeployParams;
  p_deploySalt : Hex;
  p_signatory : WalletClient
}.

(** One call of a user operation: [{ to, abi, functionName, args }]. *)
Inductive AbiArg : Type :=
| ArgText (s : string)
| ArgInt (n : Z).

Record Call : Type := {
  to : Address;
  functionName : string;
  args : list AbiArg
}.

(** What [getPaymasterData()] answers. *)
Record PaymasterData : Type := {
  paymaster : Address;
  paymasterData : Hex;
  paymasterVerificationGasLimit : Z;
  paymasterPostOpGasLimit : Z;
  isFinal : bool
}.

Record Fees : Type := { maxFeePerGas : Z; maxPriorityFeePerGas : Z }.

(** One price level of [pimlico_getUserOperationGasPrice], and its answer. *)
Record GasPrice : Type := { gp_maxFeePerGas : Hex; gp_maxPriorityFeePerGas : Hex }.
Record GasPrices : Type := { slow : GasPrice; standard : GasPrice; fast : GasPrice }.

(** The user operation the bundler client hands to the bundler endpoint. *)
Record UserOperation : Type := {
  uo_sender : Address;
  uo_calls : list Call;
  uo_fees : Fees;
  uo_paymaster : PaymasterData
}.

Record TransactionReceipt : Type := { transactionHash : Hex }.
Record UserOperationReceipt : Type := { uo_receipt : TransactionReceipt }.

(** [accountInfo] of the component. *)
Record AccountInfo : Type := {
  ai_address : Address;
  smartAccountBalance : string;
  ownerAddress : option Address;
  ownerBalance : string
}.

(** The state of the component ([useState]). *)
Record Component : Type := {
  recipient : string;
  amount : string;
  loading : bool;
  status : option Status;
  logs : list LogEntry;
  accountInfo : option AccountInfo;
  walletClient : option WalletClient;
  isConnected : bool
}.

(** ** The outside *)

(** What the handlers call and this file does not define: the chain behind
    the public client, the delegation toolkit, viem's [parseUnits], and the
    bundler endpoint (addressed by its URL). *)
Record World : Type := {
  rpc_name : Address -> Result string;
  rpc_version : Address -> Result string;
  rpc_nonces : Address -> Address -> Result Z;
  toMetaMaskSmartAccount : SmartAccountParameters -> Result SmartAccount;
  parseUnits : string -> nat -> Result Z;
  pimlico_getUserOperationGasPrice : string -> Result GasPrices;
  eth_sendUserOperation : string -> UserOperation -> Result Hex;
  waitForUserOperationReceipt : string -> Hex -> Result UserOperationReceipt
}.

(** A request sent to the outside. *)
Inductive Request : Type :=
| GetAddresses
| ToMetaMaskSmartAccount (p : SmartAccountParameters)
| ReadName (token : Address)
| ReadVersion (token : Address)
| ReadNonces (token account : Address)
| SignTypedData (account : Address) (td : TypedData)
| GetUserOperationGasPrice (url : string)
| SendUserOperation (url : string) (uo : UserOperation)
| WaitForUserOperationReceipt (url : string) (hash : Hex).

(** ** Handlers as state transformers *)

(** A handler run: the result, the component state it leaves, and the
    requests it sent, oldest first. *)
Definition M (A : Type) : Type :=
  Component -> Result A * Component * list Request.

Definition ret {A} (a : A) : M A := fun st => (Ok a, st, []).

Definition bind {A B} (m : M A) (k : A -> M B) : M B :=
  fun st =>
    match m st with
    | (Ok a, st1, t1) =>
        match k a st1 with
        | (r, st2, t2) => (r, st2, (t1 ++ t2)%list)
        end
    | (Err e, st1, t1) => (Err e, st1, t1)
    end.

Declare Scope handler_scope.
Delimit Scope handler_scope with handler.
Notation "x <- c1 ;; c2" := (bind c1 (fun x => c2))
  (at level 61, c1 at next level, right associativity) : handler_scope.
Notation "c1 ;; c2" := (bind c1 (fun _ => c2))
  (at level 61, right associativity) : handler_scope.
Local Open Scope handler_scope.

(** [await] of a call to the outside: the request is sent and its answer
    returned or thrown. *)
Definition await {A} (r : Request) (answer : Result A) : M A :=
  fun st => (answer, st, [r]).

(** A pure computation that may throw. *)
Definition lift {A} (r : Result A) : M A := fun st => (r, st, []).

(** [try { body } catch (error) { handler error }] *)
Definition tryCatch (body : M unit) (handler : Thrown -> M unit) : M unit :=
  fun st =>
    match body st with
    | (Ok u, st1, t1) => (Ok u, st1, t1)
    | (Err e, st1, t1) =>
        match handler e st1 with
        | (r, st2, t2) => (r, st2, (t1 ++ t2)%list)
        end
    end.

(** [try { body } finally { final }] *)
Definition tryFinally (body : M unit) (final : M unit) : M unit :=
  fun st =>
    match body st with
    | (r, st1, t1) =>
        match final st1 with
        | (Ok _, st2, t2) => (r, st2, (t1 ++ t2)%list)
        | (Err e, st2, t2) => (Err e, st2, (t1 ++ t2)%list)
        end
    end.

Definition setLoading (b : bool) : M unit :=
  fun st =>
    (Ok tt,
     {| recipient := recipient st; amount := amount st; loading := b;
        status := status st; logs := logs st; accountInfo := accountInfo st;
        walletClient := walletClient st; isConnected := isConnected st |},
     []).

Definition setStatus (s : option Status) : M unit :=
  fun st =>
    (Ok tt,
     {| recipient := recipient st; amount := amount st; loading := loading st;
        status := s; logs := logs st; accountInfo := accountInfo st;
        walletClient := walletClient st; isConnected := isConnected st |},
     []).

Definition setLogs (f : list LogEntry -> list LogEntry) : M unit :=
  fun st =>
    (Ok tt,
     {| recipient := recipient st; amount := amount st; loading := loading st;
        status := status st; logs := f (logs st);
        accountInfo := accountInfo st;
        walletClient := walletClient st; isConnected := isConnected st |},
     []).

Definition setAccountInfo (a : option AccountInfo) : M unit :=
  fun st =>
    (Ok tt,
     {| recipient := recipient st; amount := amount st; loading := loading st;
        status := status st; logs := logs st; accountInfo := a;
        walletClient := walletClient st; isConnected := isConnected st |},
     []).

Definition updateStatus (type : StatusType) (message : string) : M unit :=
  setStatus (Some {| status_type := type; status_message := message |}).

Definition addLog (type : LogType) (message : string) : M unit :=
  let newLog := {| log_type := type; log_message := message |} in
  setLogs (fun prev => (prev ++ [newLog])%list).

Definition clearLogs : M unit := setLogs (fun _ => []).

(** [createPublicClient({ chain, transport: http() })] *)
Definition createPublicClient (w : World) (c : Chain) : PublicClient :=
  {| client_chain := c;
     read_name := rpc_name w;
     read_version := rpc_version w;
     read_nonces := rpc_nonces w |}.

(** [`${owner}`] for [owner = addresses[0]] *)
Definition showOwner (o : option Address) : string :=
  match o with
  | Some a => showHex a
  | None => "undefined"
  end.

(** ** The bundler client of viem/account-abstraction *)

(** [createBundlerClient({ account, client, paymaster, userOperation,
    transport })]: the account, the paymaster object's [getPaymasterData],
    the [estimateFeesPerGas] hook and the URL of the transport. *)
Record BundlerClient : Type := {
  bc_account : SmartAccount;
  bc_client : PublicClient;
  bc_getPaymasterData : M PaymasterData;
  bc_estimateFeesPerGas : string -> M Fees;
  bc_url : string
}.

(** [bundlerClient.sendUserOperation({ account, calls })], as far as the
    component takes part in it: no fees are passed, so the operation's fees
    come from the configured hook; the paymaster fields come from the
    paymaster object; the prepared operation goes to the bundler endpoint,
    whose answer is the operation hash.  A hook that throws makes the call
    throw.  What viem does besides with the bundler and the account (the
    account nonce, the gas limits, the signature of the operation) is part
    of the endpoint's answer here. *)
Definition sendUserOperation (w : World) (bundlerClient : BundlerClient)
    (account : SmartAccount) (calls : list Call) : M Hex :=
  fees <- bc_estimateFeesPerGas bundlerClient (bc_url bundlerClient) ;;
  pm <- bc_getPaymasterData bundlerClient ;;
  let uo := {| uo_sender := sa_address account; uo_calls := calls;
               uo_fees := fees; uo_paymaster := pm |} in
  await (SendUserOperation (bc_url bundlerClient) uo)
        (eth_sendUserOperation w (bc_url bundlerClient) uo).

(** [bundlerClient.waitForUserOperationReceipt({ hash })] *)
Definition waitForReceipt (w : World) (bundlerClient : BundlerClient)
    (hash : Hex) : M UserOperationReceipt :=
  await (WaitForUserOperationReceipt (bc_url bundlerClient) hash)
        (waitForUserOperationReceipt w (bc_url bundlerClient) hash).

(** ** The handlers *)

Definition setupAccount (w : World) : M unit :=
  fun st =>
  match isConnected st, walletClient st with
  | true, Some walletClient =>
    tryFinally
      (tryCatch
        (setLoading true ;;
         clearLogs ;;
         addLog info "🔍 Setting up MetaMask smart account..." ;;
         updateStatus st_info "Setting up account..." ;;

         addLog info "⚙️ Creating public client for Arbitrum Sepolia" ;;
         let chain := arbitrumSepolia in
         let publicClient := createPublicClient w chain in

         addLog info "🔑 Getting MetaMask addresses" ;;
         addresses <- await GetAddresses (getAddresses walletClient) ;;
         let owner := nth_error addresses 0 in
         addLog success ("✅ Owner address: " ++ showOwner owner) ;;

         addLog info "🧠 Creating MetaMask smart account" ;;
         let parameters :=
           {| p_client := publicClient;
              p_implementation := Hybrid;
              p_deployParams :=
                {| dp_owner := owner; dp_keyIds := [];
                   dp_xValues := []; dp_yValues := [] |};
              p_deploySalt := hex "";
              p_signatory := walletClient |} in
         smartAccount <- await (ToMetaMaskSmartAccount parameters)
                               (toMetaMaskSmartAccount w parameters) ;;
         addLog success ("✅ MetaMask smart account created: "
                         ++ showHex (sa_address smartAccount)) ;;

         addLog info "📋 Smart Account Details:" ;;
         addLog info ("   Address: " ++ showHex (sa_address smartAccount)) ;;
         addLog info ("   Implementation: " ++ showImplementation Hybrid) ;;
         addLog info "   Deploy Salt: 0x" ;;
         addLog info ("   Owner: " ++ showOwner owner) ;;

         setAccountInfo (Some {| ai_address := sa_address smartAccount;
                                 smartAccountBalance := "0";
                                 ownerAddress := owner;
                                 ownerBalance := "0" |}) ;;

         addLog success "✅ Account setup complete" ;;
         updateStatus st_success "Account ready for transactions")
        (fun caught =>
         let errorMsg := errorMsg caught in
         addLog error ("❌ Account setup failed: " ++ errorMsg) ;;
         updateStatus st_error ("Error: " ++ errorMsg)))
      (setLoading false) st
  | _, _ =>
    (updateStatus st_error "Please connect MetaMask first" ;;
     addLog error "MetaMask wallet not connected") st
  end.

(** The [types] of the typed data. *)
Definition permitTypes : list (string * list Field) :=
  [ ("EIP712Domain",
     [ {| field_name := "name"; field_type := "string" |};
       {| field_name := "version"; field_type := "string" |};
       {| field_name := "chainId"; field_type := "uint256" |};
       {| field_name := "verifyingContract"; field_type := "address" |} ]);
    ("Permit",
     [ {| field_name := "owner"; field_type := "address" |};
       {| field_name := "spender"; field_type := "address" |};
       {| field_name := "value"; field_type := "uint256" |};
       {| field_name := "nonce"; field_type := "uint256" |};
       {| field_name := "deadline"; field_type := "uint256" |} ]) ].

Definition signPermit (tokenAddress : Address) (client : PublicClient)
    (account : SmartAccount) (spenderAddress : Address) (permitAmount : Z)
  : M Hex :=
  (* token = getContract({ client, address: tokenAddress, abi }) *)
  token_name <- await (ReadName tokenAddress) (read_name client tokenAddress) ;;
  token_version <- await (ReadVersion tokenAddress)
                         (read_version client tokenAddress) ;;
  let domain :=
    {| name := token_name;
       version := token_version;
       chainId := id (client_chain client);
       verifyingContract := tokenAddress |} in
  token_nonce <- await (ReadNonces tokenAddress (sa_address account))
                       (read_nonces client tokenAddress (sa_address account)) ;;
  let message :=
    {| owner := sa_address account;
       spender := spenderAddress;
       value := toString permitAmount;
       nonce := toString token_nonce;
       deadline := toString maxUint256 |} in
  let types := permitTypes in
  signature <- await
    (SignTypedData (sa_address account)
       {| primaryType := "Permit"; domain := domain; types := types;
          message := message |})
    (signTypedData account
       {| primaryType := "Permit"; domain := domain; types := types;
          message := message |}) ;;
  ret signature.

(** The [estimateFeesPerGas] hook [sendTransaction] configures: a log entry,
    the gas-price request to the bundler endpoint, and the [standard] level
    of its answer. *)
Definition estimateFeesPerGas (w : World) (url : string) : M Fees :=
  addLog info "⛽ Fetching gas prices from Pimlico" ;;
  prices <- await (GetUserOperationGasPrice url)
                  (pimlico_getUserOperationGasPrice w url) ;;
  let fees := standard prices in
  ret {| maxFeePerGas := hexToBigInt (gp_maxFeePerGas fees);
         maxPriorityFeePerGas := hexToBigInt (gp_maxPriorityFeePerGas fees) |}.

(** The [paymaster] object [sendTransaction] configures. *)
Definition getPaymasterData (data : Hex) : M PaymasterData :=
  ret {| paymaster := PAYMASTER_V08_ADDRESS;
         paymasterData := data;
         paymasterVerificationGasLimit := 200000;
         paymasterPostOpGasLimit := 15000;
         isFinal := true |}.

(** The body of the [try] block of [sendTransaction]. *)
Definition sendTransaction_try (w : World) (walletClient : WalletClient)
    (recipient amount : string) : M unit :=
  setLoading true ;;
  clearLogs ;;
  addLog info "🚀 Starting USDC transfer with paymaster..." ;;
  updateStatus st_info "Initializing transaction..." ;;

  addLog info "⚙️ Setting up blockchain connection" ;;
  let chain := arbitrumSepolia in
  let publicClient := createPublicClient w chain in

  addLog info "🔑 Getting MetaMask addresses" ;;
  addresses <- await GetAddresses (getAddresses walletClient) ;;
  let owner := nth_error addresses 0 in

  addLog info "🧠 Creating MetaMask smart account" ;;
  let parameters :=
    {| p_client := publicClient;
       p_implementation := Hybrid;
       p_deployParams :=
         {| dp_owner := owner; dp_keyIds := [];
            dp_xValues := []; dp_yValues := [] |};
       p_deploySalt := hex "";
       p_signatory := walletClient |} in
  smartAccount <- await (ToMetaMaskSmartAccount parameters)
                        (toMetaMaskSmartAccount w parameters) ;;
  addLog success ("✅ MetaMask smart account: "
                  ++ showHex (sa_address smartAccount)) ;;

  addLog info "💰 Preparing transfer amount" ;;
  let usdc_address := USDC_ADDRESS in
  amountParsed <- lift (parseUnits w amount 6) ;;
  addLog info ("📤 Transfer amount: " ++ amount ++ " USDC") ;;

  addLog info "📝 Creating EIP-2612 permit signature..." ;;
  updateStatus st_info "Creating permit signature..." ;;

  let permitAmount := 10000000 in
  addLog info ("🔏 Permit amount: " ++ formatUnits permitAmount 6 ++ " USDC") ;;

  permitSignature <- signPermit USDC_ADDRESS publicClient smartAccount
                                PAYMASTER_V08_ADDRESS permitAmount ;;
  addLog success "✅ Permit signature created" ;;

  addLog info "📦 Encoding paymaster data" ;;
  paymasterData <- lift (encodePacked
    [Tuint 8; Taddress; Tuint 256; Tbytes]
    [Num 0; HexValue USDC_ADDRESS; Num permitAmount; HexValue permitSignature]) ;;

  let paymaster := getPaymasterData paymasterData in
  addLog success ("✅ Paymaster configured: " ++ showHex PAYMASTER_V08_ADDRESS) ;;

  addLog info "🌐 Creating bundler client with Pimlico" ;;
  updateStatus st_info "Creating bundler client..." ;;
  let bundlerClient :=
    {| bc_account := smartAccount;
       bc_client := publicClient;
       bc_getPaymasterData := paymaster;
       bc_estimateFeesPerGas := estimateFeesPerGas w;
       bc_url := "https://public.pimlico.io/v2/"
                 ++ toString (id (client_chain publicClient)) ++ "/rpc" |} in
  addLog success "✅ Bundler client created" ;;

  addLog info "📤 Submitting user operation to bundler" ;;
  addLog info ("💸 Transferring " ++ amount ++ " USDC to " ++ recipient) ;;
  updateStatus st_info "Sending user operation..." ;;

  uoHash <- sendUserOperation w bundlerClient smartAccount
    [ {| to := usdc_address;
         functionName := "transfer";
         args := [ArgText recipient; ArgInt amountParsed] |} ] ;;
  addLog success ("✅ UserOperation submitted: " ++ showHex uoHash) ;;

  addLog info "⏳ Waiting for transaction confirmation..." ;;
  updateStatus st_info ("Waiting for confirmation... UserOp hash: "
                        ++ showHex uoHash) ;;
  receipt <- waitForReceipt w bundlerClient uoHash ;;

  addLog success "🎉 Transaction confirmed!" ;;
  addLog success ("📝 Transaction hash: "
                  ++ showHex (transactionHash (uo_receipt receipt))) ;;
  addLog success ("💸 Sent " ++ amount ++ " USDC to " ++ recipient) ;;
  addLog success "⛽ Gas paid with USDC via paymaster" ;;

  updateStatus st_success
    ("Transaction successful! Hash: "
     ++ showHex (transactionHash (uo_receipt receipt))).

(** The [catch] block of [sendTransaction]. *)
Definition sendTransaction_catch (caught : Thrown) : M unit :=
  let errorMsg := errorMsg caught in
  addLog error ("❌ Transaction failed: " ++ errorMsg) ;;
  updateStatus st_error ("Transaction failed: " ++ errorMsg).

Definition sendTransaction (w : World) : M unit :=
  fun st =>
  match isConnected st, walletClient st with
  | true, Some walletClient =>
      if truthy (recipient st) && truthy (amount st) then
        tryFinally
          (tryCatch
             (sendTransaction_try w walletClient (recipient st) (amount st))
             sendTransaction_catch)
          (setLoading false) st
      else
        (updateStatus st_error "Please connect MetaMask and fill in all fields" ;;
         addLog error "MetaMask connection and all fields are required") st
  | _, _ =>
      (updateStatus st_error "Please connect MetaMask and fill in all fields" ;;
       addLog error "MetaMask connection and all fields are required") st
  end.

(** ** Concrete sessions *)

(** The session of the error report: owner account, resolved smart account,
    and the error the smart account's [signTypedData] throws. *)
Definition report_owner : Address :=
  hex "2514844F312c02Ae3C9d4fEb40db4eC8830b6844".
Definition report_account : Address :=
  hex "bd1fC64F72717958c4ccbC41c417EFb7af0FEe20".

Definition AccountNotFoundError : Thrown :=
  JsError "AccountNotFoundError"
    "Could not find an Account to execute with this Action. Please provide an Account with the `account` argument on the Action, or by supplying an `account` to the Client. Docs: https://viem.sh/docs/actions/wallet/signTypedData#account Version: viem@2.33.3".

Definition HttpRequestError : Thrown :=
  JsError "HttpRequestError" "HTTP request failed.".

(** A 65-byte signature. *)
Definition some_signature : Hex :=
  (repeat x11 32 ++ repeat x22 32 ++ [x1b])%list.

Definition some_prices : GasPrices :=
  let level (a b : string) :=
    {| gp_maxFeePerGas := hex a; gp_maxPriorityFeePerGas := hex b |} in
  {| slow := level "05f5e100" "00";
     standard := level "0bebc200" "0186a0";
     fast := level "11e1a300" "030d40" |}.

Definition some_hash : Hex := repeat xaa 32.
Definition some_txHash : Hex := repeat xbb 32.

(** "0.1" and "2.5" at six decimals; other texts are refused. *)
Definition some_parseUnits (text : string) (decimals : nat) : Result Z :=
  if String.eqb text "0.1" then Ok 100000
  else if String.eqb text "2.5" then Ok 2500000
  else Err (JsError "InvalidDecimalNumberError" "Number is not a valid decimal number.").

(** A world built from the answers of the signer, the gas-price oracle and
    the bundler; the token is USDC with nonce 7 for every owner. *)
Definition make_world (sign : TypedData -> Result Hex)
    (prices : Result GasPrices) (sent : Result Hex) : World :=
  {| rpc_name := fun _ => Ok "USD Coin";
     rpc_version := fun _ => Ok "2";
     rpc_nonces := fun _ _ => Ok 7;
     toMetaMaskSmartAccount := fun _ =>
       Ok {| sa_address := report_account; signTypedData := sign |};
     parseUnits := some_parseUnits;
     pimlico_getUserOperationGasPrice := fun _ => prices;
     eth_sendUserOperation := fun _ _ => sent;
     waitForUserOperationReceipt := fun _ _ =>
       Ok {| uo_receipt := {| transactionHash := some_txHash |} |} |}.

(** Every stage answers. *)
Definition world_ok : World :=
  make_world (fun _ => Ok some_signature) (Ok some_prices) (Ok some_hash).

(** The world of the error report: the smart account cannot sign typed
    data. *)
Definition world_report : World :=
  make_world (fun _ => Err AccountNotFoundError) (Ok some_prices) (Ok some_hash).


(** The oracle answers, the submission fails with the same error. *)
Definition world_no_bundler : World :=
  make_world (fun _ => Ok some_signature) (Ok some_prices) (Err HttpRequestError).

Definition report_wallet : WalletClient :=
  {| getAddresses := Ok [report_owner] |}.

(** The component once the wallet is connected, with the default inputs. *)
Definition connected : Component :=
  {| recipient := "0x5732e1bccaeb161e3b93d126010042b0f1b9cfc9";
     amount := "0.1";
     loading := false;
     status := None;
     logs := [];
     accountInfo := None;
     walletClient := Some report_wallet;
     isConnected := true |}.

(** The parts of a handler run. *)
Definition resultOf {A} (run : Result A * Component * list Request) : Result A :=
  fst (fst run).
Definition stateOf {A} (run : Result A * Component * list Request) : Component :=
  snd (fst run).
Definition requestsOf {A} (run : Result A * Component * list Request)
  : list Request := snd run.

(** ** Reading a payload back *)

(** The fixed prefix of a paymaster payload as the specification lays it
    out for the consumer: the mode at byte 0, the token address at bytes
    1..20, the amount (big-endian) at bytes 21..52.  The component has no
    decoder; this one follows the specification's words. *)
Record PayloadPrefix : Type := {
  prefix_mode : Z;
  prefix_token : Address;
  prefix_amount : Z
}.

Definition decodePrefix (payload : Hex) : PayloadPrefix :=
  {| prefix_mode := hexToBigInt (slice payload 0 1);
     prefix_token := slice payload 1 21;
     prefix_amount := hexToBigInt (slice payload 21 53) |}.

(** The types [sendTransaction] passes to [encodePacked]:
    [['uint8', 'address', 'uint256', 'bytes']]. *)
Definition paymasterDataTypes : list PackedType :=
  [Tuint 8; Taddress; Tuint 256; Tbytes].

(** ** Naming a failure *)

(** A result that is the throwing of an [Error] object of the given class
    name; the names of the specification's error list are read this way. *)
Definition raises {A} (errName : string) (r : Result A) : Prop :=
  exists message, r = Err (JsError errName message).

(** The smart account of the error report. *)
Definition report_smartAccount : SmartAccount :=
  {| sa_address := report_account;
     signTypedData := fun _ => Err AccountNotFoundError |}.

(** ** Reading the log *)

(** The entries of a run of [sendTransaction] that is confirmed, in the
    order of appending, with the data they print: the inputs, the address
    of the smart account, the hash of the user operation and the hash of
    the transaction. *)
Definition pipeline_log (recipient amount : string)
    (account uoHash txHash : Hex) : list LogEntry :=
  let entry t m := {| log_type := t; log_message := m |} in
  [ entry info "🚀 Starting USDC transfer with paymaster...";
    entry info "⚙️ Setting up blockchain connection";
    entry info "🔑 Getting MetaMask addresses";
    entry info "🧠 Creating MetaMask smart account";
    entry success ("✅ MetaMask smart account: " ++ showHex account);
    entry info "💰 Preparing transfer amount";
    entry info ("📤 Transfer amount: " ++ amount ++ " USDC");
    entry info "📝 Creating EIP-2612 permit signature...";
    entry info "🔏 Permit amount: 10 USDC";
    entry success "✅ Permit signature created";
    entry info "📦 Encoding paymaster data";
    entry success
      "✅ Paymaster configured: 0x3ba9a96ee3eff3a69e2b18886acf52027eff8966";
    entry info "🌐 Creating bundler client with Pimlico";
    entry success "✅ Bundler client created";
    entry info "📤 Submitting user operation to bundler";
    entry info ("💸 Transferring " ++ amount ++ " USDC to " ++ recipient);
    entry info "⛽ Fetching gas prices from Pimlico";
    entry success ("✅ UserOperation submitted: " ++ showHex uoHash);
    entry info "⏳ Waiting for transaction confirmation...";
    entry success "🎉 Transaction confirmed!";
    entry success ("📝 Transaction hash: " ++ showHex txHash);
    entry success ("💸 Sent " ++ amount ++ " USDC to " ++ recipient);
    entry success "⛽ Gas paid with USDC via paymaster" ].

(** The entry the [catch] block of [sendTransaction] appends. *)
Definition failed_entry (caught : Thrown) : LogEntry :=
  {| log_type := error;
     log_message := "❌ Transaction failed: " ++ errorMsg caught |}.

(** The status the [catch] block of [sendTransaction] sets. *)
Definition failed_status (caught : Thrown) : Status :=
  {| status_type := st_error;
     status_message := "Transaction failed: " ++ errorMsg caught |}.

(** The index of the first entry with the given message. *)
Fixpoint position (message : string) (l : list LogEntry) : option nat :=
  match l with
  | [] => None
  | entry :: rest =>
      if String.eqb (log_message entry) message then Some O
      else option_map S (position message rest)
  end.

Definition submitting_message : string :=
  "📤 Submitting user operation to bundler".
Definition estimating_fees_message : string :=
  "⛽ Fetching gas prices from Pimlico".

(** The URL of the bundler transport, for the chain of the public client. *)
Definition pimlico_url : string :=
  "https://public.pimlico.io/v2/421614/rpc".

(** The resolution request of the report session, and the permit it asks
    the account to sign. *)
Definition report_parameters (w : World) : SmartAccountParameters :=
  {| p_client := createPublicClient w arbitrumSepolia;
     p_implementation := Hybrid;
     p_deployParams := {| dp_owner := Some report_owner; dp_keyIds := [];
                          dp_xValues := []; dp_yValues := [] |};
     p_deploySalt := hex "";
     p_signatory := report_wallet |}.

Definition report_typedData : TypedData :=
  {| primaryType := "Permit";
     domain := {| name := "USD Coin"; version := "2"; chainId := 421614;
                  verifyingContract := USDC_ADDRESS |};
     types := permitTypes;
     message := {| owner := report_account;
                   spender := PAYMASTER_V08_ADDRESS;
                   value := "10000000"; nonce := "7";
                   deadline := toString maxUint256 |} |}.

(** ** Stages *)




(** ** The rest of the component: connection, account changes, buttons *)

(** The state of the component when it is mounted ([useState] defaults). *)
Definition initial : Component :=
  {| recipient := "0x5732e1bccaeb161e3b93d126010042b0f1b9cfc9";
     amount := "0.1";
     loading := false;
     status := None;
     logs := [];
     accountInfo := None;
     walletClient := None;
     isConnected := false |}.

(** [window.ethereum]: what it answers to [eth_requestAccounts] and the
    accounts it lists ([eth_accounts], behind [getAddresses]). *)
Record Ethereum : Type := {
  eth_requestAccounts : Result (list Address);
  eth_accounts : Result (list Address)
}.

(** [createWalletClient({ chain, transport: custom(window.ethereum) })] *)
Definition createWalletClient (c : Chain) (ethereum : Ethereum) : WalletClient :=
  {| getAddresses := eth_accounts ethereum |}.

Definition setWalletClient (c : option WalletClient) : M unit :=
  fun st =>
    (Ok tt,
     {| recipient := recipient st; amount := amount st; loading := loading st;
        status := status st; logs := logs st; accountInfo := accountInfo st;
        walletClient := c; isConnected := isConnected st |},
     []).

Definition setIsConnected (b : bool) : M unit :=
  fun st =>
    (Ok tt,
     {| recipient := recipient st; amount := amount st; loading := loading st;
        status := status st; logs := logs st; accountInfo := accountInfo st;
        walletClient := walletClient st; isConnected := b |},
     []).

(** [await window.ethereum.request(...)]: a request to the wallet extension
    itself; the request list keeps the requests of the pipeline. *)
Definition awaitWallet {A} (answer : Result A) : M A :=
  fun st => (answer, st, []).

(** [connectWallet]; the argument is [window.ethereum], absent when the
    extension is not installed. *)
Definition connectWallet (window_ethereum : option Ethereum) : M unit :=
  match window_ethereum with
  | None =>
      updateStatus st_error "MetaMask is not installed" ;;
      addLog error "❌ MetaMask not found. Please install MetaMask."
  | Some ethereum =>
      tryFinally
        (tryCatch
          (setLoading true ;;
           addLog info "🦊 Connecting to MetaMask..." ;;

           awaitWallet (eth_requestAccounts ethereum) ;;

           let client := createWalletClient arbitrumSepolia ethereum in

           addresses <- await GetAddresses (getAddresses client) ;;
           let ownerAddress := nth_error addresses 0 in

           addLog success ("✅ Connected to MetaMask: " ++ showOwner ownerAddress) ;;

           setWalletClient (Some client) ;;
           setIsConnected true ;;
           updateStatus st_success "MetaMask connected successfully")
          (fun caught =>
           let errorMsg := errorMsg caught in
           addLog error ("❌ Failed to connect: " ++ errorMsg) ;;
           updateStatus st_error ("Connection failed: " ++ errorMsg)))
        (setLoading false)
  end.

(** [handleAccountsChanged], the listener of the wallet's [accountsChanged]
    event. *)
Definition handleAccountsChanged (accounts : list string) : M unit :=
  if Nat.eqb (List.length accounts) 0 then
    setIsConnected false ;;
    setWalletClient None ;;
    setAccountInfo None
  else ret tt.

(** The [disabled] attribute of the three buttons, as rendered. *)
Definition connectButton_disabled (st : Component) : bool := loading st.

Definition setupButton_disabled (st : Component) : bool :=
  loading st || negb (isConnected st).

Definition sendButton_disabled (st : Component) : bool :=
  loading st || negb (isConnected st)
  || negb (match accountInfo st with Some _ => true | None => false end).

(** The connection flag and the wallet client go together, and account
    information is only kept while connected. *)
Definition coherent (st : Component) : Prop :=
  (isConnected st = true <-> walletClient st <> None) /\
  (accountInfo st <> None -> isConnected st = true).

(** The component of the report once its account is set up. *)
Definition ready : Component :=
  {| recipient := "0x5732e1bccaeb161e3b93d126010042b0f1b9cfc9";
     amount := "0.1";
     loading := false;
     status := None;
     logs := [];
     accountInfo := Some {| ai_address := report_account;
                            smartAccountBalance := "0";
                            ownerAddress := Some report_owner;
                            ownerBalance := "0" |};
     walletClient := Some report_wallet;
     isConnected := true |}.


(** A wallet extension that lists the report's owner, one that lists no
    account, and one whose user rejects the connection. *)
Definition report_ethereum : Ethereum :=
  {| eth_requestAccounts := Ok [report_owner];
     eth_accounts := Ok [report_owner] |}.

Definition empty_ethereum : Ethereum :=
  {| eth_requestAccounts := Ok []; eth_accounts := Ok [] |}.

Definition rejecting_ethereum : Ethereum :=
  {| eth_requestAccounts :=
       Err (JsError "UserRejectedRequestError" "User rejected the request.");
     eth_accounts := Ok [] |}.

(** * Properties *)

(** ** The session of the error report, replayed *)

Example formatUnits_permitAmount : formatUnits 10000000 6 = "10".
Proof. reflexivity. Qed.

Example formatUnits_fraction : formatUnits 1234500 6 = "1.2345".
Proof. reflexivity. Qed.

Example setupAccount_report :
  option_map ai_address
    (accountInfo (stateOf (setupAccount world_report connected)))
  = Some report_account.
Proof. reflexivity. Qed.

(** The run of the report: the account is resolved, the permit signature
    is asked for, and the run ends on the error of [signTypedData]. *)
Example sendTransaction_report :
  map log_message (logs (stateOf (sendTransaction world_report connected)))
  = [ "🚀 Starting USDC transfer with paymaster...";
      "⚙️ Setting up blockchain connection";
      "🔑 Getting MetaMask addresses";
      "🧠 Creating MetaMask smart account";
      "✅ MetaMask smart account: 0xbd1fc64f72717958c4ccbc41c417efb7af0fee20";
      "💰 Preparing transfer amount";
      "📤 Transfer amount: 0.1 USDC";
      "📝 Creating EIP-2612 permit signature...";
      "🔏 Permit amount: 10 USDC";
      "❌ Transaction failed: " ++ errorMsg AccountNotFoundError ].
Proof. vm_compute. reflexivity. Qed.

(** ** Bytes *)

Lemma to_N_byteOfN (n : N) : (n < 256)%N -> Byte.to_N (byteOfN n) = n.
Proof.
  intros Hn. unfold byteOfN.
  destruct (Byte.of_N n) as [b|] eqn:E.
  - now apply Byte.to_of_N.
  - apply Byte.of_N_None_iff in E. lia.
Qed.

Lemma length_bigEndian (n : nat) (v : N) : List.length (bigEndian n v) = n.
Proof.
  revert v. induction n as [|n IH]; intros v; simpl.
  - reflexivity.
  - rewrite length_app, IH. simpl. lia.
Qed.

Lemma hexToBigInt_snoc (h : Hex) (b : byte) :
  hexToBigInt (h ++ [b])%list = 256 * hexToBigInt h + Z.of_N (Byte.to_N b).
Proof. unfold hexToBigInt. rewrite fold_left_app. reflexivity. Qed.

Lemma hexToBigInt_bigEndian (n : nat) (v : N) :
  (v < 256 ^ N.of_nat n)%N -> hexToBigInt (bigEndian n v) = Z.of_N v.
Proof.
  revert v. induction n as [|n IH]; intros v Hv.
  - simpl in *. assert (v = 0%N) by lia. subst. reflexivity.
  - cbn [bigEndian]. rewrite hexToBigInt_snoc.
    assert (Hdiv : (v / 256 < 256 ^ N.of_nat n)%N).
    { apply N.Div0.div_lt_upper_bound.
      rewrite Nat2N.inj_succ, N.pow_succ_r' in Hv. exact Hv. }
    rewrite (IH _ Hdiv), to_N_byteOfN by (apply N.mod_lt; lia).
    rewrite (N.div_mod v 256) at 3 by lia. lia.
Qed.

Lemma hexToBigInt_single (b : byte) : hexToBigInt [b] = Z.of_N (Byte.to_N b).
Proof. unfold hexToBigInt. simpl. lia. Qed.

Lemma numberToHex_inv (v : Z) (n : nat) (h : Hex) :
  numberToHex v n = Ok h ->
  0 <= v <= 2 ^ (8 * Z.of_nat n) - 1 /\ h = bigEndian n (Z.to_N v).
Proof.
  unfold numberToHex. intros H.
  destruct (2 ^ (8 * Z.of_nat n) - 1 <? v) eqn:E1;
    destruct (v <? 0) eqn:E2; simpl in H; try discriminate.
  apply Z.ltb_ge in E1, E2. injection H as <-. split; [lia | reflexivity].
Qed.

Lemma numberToHex_ok (v : Z) (n : nat) :
  0 <= v <= 2 ^ (8 * Z.of_nat n) - 1 ->
  numberToHex v n = Ok (bigEndian n (Z.to_N v)).
Proof.
  intros Hv. unfold numberToHex.
  destruct (2 ^ (8 * Z.of_nat n) - 1 <? v) eqn:E1; [apply Z.ltb_lt in E1; lia|].
  destruct (v <? 0) eqn:E2; [apply Z.ltb_lt in E2; lia|].
  reflexivity.
Qed.

Lemma pow256_bytes (n : nat) :
  Z.of_N (256 ^ N.of_nat n) = 2 ^ (8 * Z.of_nat n).
Proof.
  rewrite N2Z.inj_pow, nat_N_Z. change (Z.of_N 256) with (2 ^ 8).
  rewrite <- Z.pow_mul_r by lia. reflexivity.
Qed.

Lemma hexToBigInt_numberToHex (v : Z) (n : nat) (h : Hex) :
  numberToHex v n = Ok h -> List.length h = n /\ hexToBigInt h = v.
Proof.
  intros H. apply numberToHex_inv in H as [Hv ->]. split.
  - apply length_bigEndian.
  - rewrite hexToBigInt_bigEndian.
    + apply Z2N.id. lia.
    + apply N2Z.inj_lt. rewrite pow256_bytes, Z2N.id; lia.
Qed.

(** ** The paymaster payload *)

Lemma encodePacked_paymaster_inv (mode : Z) (token : Address) (amt : Z)
    (sig payload : Hex) :
  encodePacked paymasterDataTypes
    [Num mode; HexValue token; Num amt; HexValue sig] = Ok payload ->
  exists modeBytes amountBytes,
    numberToHex mode 1 = Ok modeBytes /\
    List.length token = 20%nat /\
    numberToHex amt 32 = Ok amountBytes /\
    payload = (modeBytes ++ token ++ amountBytes ++ sig)%list.
Proof.
  unfold encodePacked, paymasterDataTypes. cbn [List.length Nat.eqb negb].
  cbn [encodeEach encode].
  change (8 / 8)%nat with 1%nat. change (256 / 8)%nat with 32%nat.
  destruct (numberToHex mode 1) as [mb|] eqn:Em; [|discriminate].
  cbn [bindR]. unfold isAddress.
  destruct (Nat.eqb (List.length token) 20) eqn:Et; [|discriminate].
  cbn [bindR].
  destruct (numberToHex amt 32) as [ab|] eqn:Ea; [|discriminate].
  cbn [bindR List.concat]. intros H. injection H as <-.
  exists mb, ab. apply Nat.eqb_eq in Et.
  rewrite app_nil_r. repeat split; assumption.
Qed.

Lemma encodePacked_paymaster_ok (mode : Z) (token : Address) (amt : Z)
    (sig : Hex) :
  0 <= mode <= 255 ->
  List.length token = 20%nat ->
  0 <= amt <= 2 ^ 256 - 1 ->
  encodePacked paymasterDataTypes
    [Num mode; HexValue token; Num amt; HexValue sig]
  = Ok (bigEndian 1 (Z.to_N mode) ++ token
        ++ bigEndian 32 (Z.to_N amt) ++ sig)%list.
Proof.
  intros Hm Ht Ha.
  unfold encodePacked, paymasterDataTypes. cbn [List.length Nat.eqb negb].
  cbn [encodeEach encode].
  change (8 / 8)%nat with 1%nat. change (256 / 8)%nat with 32%nat.
  rewrite (numberToHex_ok mode 1) by (change (2 ^ (8 * Z.of_nat 1)) with 256; lia).
  cbn [bindR]. unfold isAddress. rewrite Ht. cbn [Nat.eqb bindR].
  rewrite (numberToHex_ok amt 32)
    by (change (8 * Z.of_nat 32) with 256; lia).
  cbn [bindR List.concat]. rewrite app_nil_r. reflexivity.
Qed.

Lemma slice_app_middle (a b c : Hex) (start end_ : nat) :
  start = List.length a ->
  end_ = (List.length a + List.length b)%nat ->
  slice (a ++ b ++ c)%list start end_ = b.
Proof.
  intros -> ->. unfold slice.
  rewrite skipn_app, skipn_all, Nat.sub_diag. cbn [skipn app].
  replace (List.length a + List.length b - List.length a)%nat
    with (List.length b) by lia.
  rewrite firstn_app, Nat.sub_diag, firstn_all. cbn [firstn].
  apply app_nil_r.
Qed.

(** What [decodePrefix] reads from a payload made of a mode byte, twenty
    token bytes, thirty-two amount bytes and a signature. *)
Lemma decodePrefix_layout (mb : byte) (token amountBytes sig : Hex) :
  List.length token = 20%nat ->
  List.length amountBytes = 32%nat ->
  decodePrefix ([mb] ++ token ++ amountBytes ++ sig)%list
  = {| prefix_mode := Z.of_N (Byte.to_N mb);
       prefix_token := token;
       prefix_amount := hexToBigInt amountBytes |}.
Proof.
  intros Ht Ha. unfold decodePrefix.
  replace (slice ([mb] ++ token ++ amountBytes ++ sig)%list 0 1) with [mb]
    by (symmetry; apply (slice_app_middle [] [mb]); reflexivity).
  rewrite hexToBigInt_single. f_equal.
  - apply slice_app_middle; [reflexivity | rewrite Ht; reflexivity].
  - f_equal.
    replace ([mb] ++ token ++ amountBytes ++ sig)%list
      with (([mb] ++ token) ++ amountBytes ++ sig)%list
      by (rewrite <- app_assoc; reflexivity).
    apply slice_app_middle; rewrite length_app, Ht; [reflexivity|].
    rewrite Ha. reflexivity.
Qed.

Lemma decodePrefix_encodePacked (mode : Z) (token : Address) (amt : Z)
    (sig payload : Hex) :
  encodePacked paymasterDataTypes
    [Num mode; HexValue token; Num amt; HexValue sig] = Ok payload ->
  decodePrefix payload
  = {| prefix_mode := mode; prefix_token := token; prefix_amount := amt |}.
Proof.
  intros H. apply encodePacked_paymaster_inv in H
    as (mb & ab & Hm & Ht & Ha & ->).
  apply hexToBigInt_numberToHex in Ha as [Hla Hva].
  pose proof (hexToBigInt_numberToHex _ _ _ Hm) as [Hlm Hvm].
  destruct mb as [|m0 [|]]; try discriminate Hlm.
  rewrite hexToBigInt_single in Hvm.
  change ([m0] ++ token ++ ab ++ sig)%list
    with ([m0] ++ token ++ ab ++ sig)%list.
  rewrite (decodePrefix_layout m0 token ab sig Ht Hla).
  rewrite Hvm, Hva. reflexivity.
Qed.



(** C3. For signatures of one length, the encoding determines the mode, the
    token and the amount: two equal payloads come from equal triples; and
    reading the fixed prefix of an encoded payload (mode at byte 0, address
    at bytes 1..20, amount at bytes 21..52) gives back what was encoded. *)
Theorem paymaster_payload_injective_roundtrip
    (mode mode' : Z) (token token' : Address) (amt amt' : Z)
    (sig sig' payload payload' : Hex) :
  encodePacked paymasterDataTypes
    [Num mode; HexValue token; Num amt; HexValue sig] = Ok payload ->
  encodePacked paymasterDataTypes
    [Num mode'; HexValue token'; Num amt'; HexValue sig'] = Ok payload' ->
  List.length sig = List.length sig' ->
  (payload = payload' -> mode = mode' /\ token = token' /\ amt = amt') /\
  decodePrefix payload
  = {| prefix_mode := mode; prefix_token := token; prefix_amount := amt |}.
Proof.
  intros H H' _.
  pose proof (decodePrefix_encodePacked _ _ _ _ _ H) as D.
  pose proof (decodePrefix_encodePacked _ _ _ _ _ H') as D'.
  split; [|exact D].
  intros ->. rewrite D in D'. injection D' as -> -> ->. auto.
Qed.

Lemma paymaster_payload_injective_roundtrip_witness :
  (hex ("00" ++ "75faf114eafb1bdbe2f0316df893fd58ce46aa4d"
        ++ "0000000000000000000000000000000000000000000000000000000000989680"
        ++ "abcd")
   = hex ("00" ++ "75faf114eafb1bdbe2f0316df893fd58ce46aa4d"
        ++ "0000000000000000000000000000000000000000000000000000000000989680"
        ++ "abcd") ->
   0 = 0 /\ USDC_ADDRESS = USDC_ADDRESS /\ 10000000 = 10000000) /\
  decodePrefix
    (hex ("00" ++ "75faf114eafb1bdbe2f0316df893fd58ce46aa4d"
        ++ "0000000000000000000000000000000000000000000000000000000000989680"
        ++ "abcd"))
  = {| prefix_mode := 0; prefix_token := USDC_ADDRESS;
       prefix_amount := 10000000 |}.
Proof.
  apply (paymaster_payload_injective_roundtrip
           0 0 USDC_ADDRESS USDC_ADDRESS 10000000 10000000
           (hex "abcd") (hex "abcd")).
  - vm_compute. reflexivity.
  - vm_compute. reflexivity.
  - reflexivity.
Defined.

(** ** Signing the permit *)

(** The typed data of a permit, given what the chain answered. *)
Lemma signPermit_run (tokenAddress : Address) (client : PublicClient)
    (account : SmartAccount) (spenderAddress : Address) (permitAmount : Z)
    (st : Component) :
  signPermit tokenAddress client account spenderAddress permitAmount st =
  match read_name client tokenAddress with
  | Err e => (Err e, st, [ReadName tokenAddress])
  | Ok token_name =>
    match read_version client tokenAddress with
    | Err e => (Err e, st, [ReadName tokenAddress; ReadVersion tokenAddress])
    | Ok token_version =>
      match read_nonces client tokenAddress (sa_address account) with
      | Err e =>
          (Err e, st,
           [ReadName tokenAddress; ReadVersion tokenAddress;
            ReadNonces tokenAddress (sa_address account)])
      | Ok token_nonce =>
          let td :=
            {| primaryType := "Permit";
               domain := {| name := token_name; version := token_version;
                            chainId := id (client_chain client);
                            verifyingContract := tokenAddress |};
               types := permitTypes;
               message := {| owner := sa_address account;
                             spender := spenderAddress;
                             value := toString permitAmount;
                             nonce := toString token_nonce;
                             deadline := toString maxUint256 |} |} in
          (signTypedData account td, st,
           [ReadName tokenAddress; ReadVersion tokenAddress;
            ReadNonces tokenAddress (sa_address account);
            SignTypedData (sa_address account) td])
      end
    end
  end.
Proof.
  unfold signPermit, bind, await, ret.
  destruct (read_name client tokenAddress); [|reflexivity].
  destruct (read_version client tokenAddress); [|reflexivity].
  destruct (read_nonces client tokenAddress (sa_address account));
    [|reflexivity].
  cbn zeta. destruct (signTypedData account _); reflexivity.
Qed.

(** [signPermit] leaves the component state as it found it. *)
Lemma signPermit_state (tokenAddress : Address) (client : PublicClient)
    (account : SmartAccount) (spenderAddress : Address) (permitAmount : Z)
    (st : Component) :
  stateOf (signPermit tokenAddress client account spenderAddress permitAmount st)
  = st.
Proof.
  rewrite signPermit_run.
  destruct (read_name client tokenAddress); [|reflexivity].
  destruct (read_version client tokenAddress); [|reflexivity].
  destruct (read_nonces client tokenAddress (sa_address account));
    reflexivity.
Qed.

(** C4. Whatever typed data an invocation of [signPermit] asks the account
    to sign, its domain is exactly the token's name and version as the chain
    answered them in this invocation, the chain id of the client, and the
    token address as verifying contract; its message is exactly the account
    address as owner, the spender, the value, the nonce the chain answered
    for the owner in this invocation, and the deadline; the three reads are
    the requests sent just before the request to sign. *)
Theorem signPermit_typed_data (tokenAddress : Address) (client : PublicClient)
    (account : SmartAccount) (spenderAddress : Address) (permitAmount : Z)
    (st : Component) (signer : Address) (td : TypedData) :
  In (SignTypedData signer td)
     (requestsOf (signPermit tokenAddress client account spenderAddress
                             permitAmount st)) ->
  exists token_name token_version token_nonce,
    read_name client tokenAddress = Ok token_name /\
    read_version client tokenAddress = Ok token_version /\
    read_nonces client tokenAddress (sa_address account) = Ok token_nonce /\
    signer = sa_address account /\
    primaryType td = "Permit" /\
    types td = permitTypes /\
    domain td = {| name := token_name;
                   version := token_version;
                   chainId := id (client_chain client);
                   verifyingContract := tokenAddress |} /\
    message td = {| owner := sa_address account;
                    spender := spenderAddress;
                    value := toString permitAmount;
                    nonce := toString token_nonce;
                    deadline := toString maxUint256 |} /\
    requestsOf (signPermit tokenAddress client account spenderAddress
                           permitAmount st)
    = [ReadName tokenAddress; ReadVersion tokenAddress;
       ReadNonces tokenAddress (sa_address account);
       SignTypedData signer td] /\
    resultOf (signPermit tokenAddress client account spenderAddress
                         permitAmount st)
    = signTypedData account td.
Proof.
  rewrite signPermit_run.
  destruct (read_name client tokenAddress) as [nm|];
    [|cbn; intros [H|[]]; discriminate].
  destruct (read_version client tokenAddress) as [ver|];
    [|cbn; intros [H|[H|[]]]; discriminate].
  destruct (read_nonces client tokenAddress (sa_address account)) as [n|];
    [|cbn; intros [H|[H|[H|[]]]]; discriminate].
  cbn. intros [H|[H|[H|[H|[]]]]]; try discriminate.
  injection H as <- <-. exists nm, ver, n. cbn. repeat split; reflexivity.
Qed.

Lemma signPermit_typed_data_witness :
  exists token_name token_version token_nonce,
    Ok "USD Coin" = Ok token_name /\
    Ok "2" = Ok token_version /\
    Ok 7 = Ok token_nonce /\
    report_account = report_account /\
    "Permit" = "Permit" /\
    permitTypes = permitTypes /\
    {| name := "USD Coin"; version := "2"; chainId := 421614;
       verifyingContract := USDC_ADDRESS |}
    = {| name := token_name; version := token_version; chainId := 421614;
         verifyingContract := USDC_ADDRESS |} /\
    {| owner := report_account; spender := PAYMASTER_V08_ADDRESS;
       value := "10000000"; nonce := "7";
       deadline := toString maxUint256 |}
    = {| owner := report_account; spender := PAYMASTER_V08_ADDRESS;
         value := toString 10000000; nonce := toString token_nonce;
         deadline := toString maxUint256 |} /\
    requestsOf (signPermit USDC_ADDRESS
                  (createPublicClient world_report arbitrumSepolia)
                  report_smartAccount PAYMASTER_V08_ADDRESS 10000000 connected)
    = [ReadName USDC_ADDRESS; ReadVersion USDC_ADDRESS;
       ReadNonces USDC_ADDRESS report_account;
       SignTypedData report_account
         {| primaryType := "Permit";
            domain := {| name := "USD Coin"; version := "2";
                         chainId := 421614;
                         verifyingContract := USDC_ADDRESS |};
            types := permitTypes;
            message := {| owner := report_account;
                          spender := PAYMASTER_V08_ADDRESS;
                          value := "10000000"; nonce := "7";
                          deadline := toString maxUint256 |} |}] /\
    resultOf (signPermit USDC_ADDRESS
                (createPublicClient world_report arbitrumSepolia)
                report_smartAccount PAYMASTER_V08_ADDRESS 10000000 connected)
    = Err AccountNotFoundError.
Proof.
  apply (signPermit_typed_data USDC_ADDRESS
           (createPublicClient world_report arbitrumSepolia)
           report_smartAccount PAYMASTER_V08_ADDRESS 10000000 connected
           report_account
           {| primaryType := "Permit";
              domain := {| name := "USD Coin"; version := "2";
                           chainId := 421614;
                           verifyingContract := USDC_ADDRESS |};
              types := permitTypes;
              message := {| owner := report_account;
                            spender := PAYMASTER_V08_ADDRESS;
                            value := "10000000"; nonce := "7";
                            deadline := toString maxUint256 |} |}).
  simpl. right. right. right. left. reflexivity.
Defined.

(** C10. Whatever permit message an invocation of [signPermit] asks the
    account to sign, its deadline is [maxUint256], the decimal spelling of
    2^256 - 1: no invocation asks for a signature over a finite deadline. *)
Theorem permit_deadline_never_expires (tokenAddress : Address)
    (client : PublicClient) (account : SmartAccount)
    (spenderAddress : Address) (permitAmount : Z) (st : Component)
    (signer : Address) (td : TypedData) :
  In (SignTypedData signer td)
     (requestsOf (signPermit tokenAddress client account spenderAddress
                             permitAmount st)) ->
  deadline (message td) = toString (2 ^ 256 - 1) /\
  deadline (message td)
  = "115792089237316195423570985008687907853269984665640564039457584007913129639935".
Proof.
  rewrite signPermit_run.
  destruct (read_name client tokenAddress) as [nm|];
    [|cbn; intros [H|[]]; discriminate].
  destruct (read_version client tokenAddress) as [ver|];
    [|cbn; intros [H|[H|[]]]; discriminate].
  destruct (read_nonces client tokenAddress (sa_address account)) as [n|];
    [|cbn; intros [H|[H|[H|[]]]]; discriminate].
  cbn [requestsOf snd In].
  intros [H|[H|[H|[H|[]]]]]; try discriminate.
  injection H as _ <-. cbn [message deadline]. split; reflexivity.
Qed.

Lemma permit_deadline_never_expires_witness :
  toString maxUint256 = toString (2 ^ 256 - 1) /\
  toString maxUint256
  = "115792089237316195423570985008687907853269984665640564039457584007913129639935".
Proof.
  apply (permit_deadline_never_expires USDC_ADDRESS
           (createPublicClient world_report arbitrumSepolia)
           report_smartAccount PAYMASTER_V08_ADDRESS 10000000 connected
           report_account
           {| primaryType := "Permit";
              domain := {| name := "USD Coin"; version := "2";
                           chainId := 421614;
                           verifyingContract := USDC_ADDRESS |};
              types := permitTypes;
              message := {| owner := report_account;
                            spender := PAYMASTER_V08_ADDRESS;
                            value := "10000000"; nonce := "7";
                            deadline := toString maxUint256 |} |}).
  simpl. right. right. right. left. reflexivity.
Defined.

(** C1, as the component has it. [signPermit] makes no check of its own of
    what the account can sign.  When the account's [signTypedData] throws
    for every typed data, [signPermit] returns no signature: it throws, and
    once the three reads are answered what it throws is the account's own
    error, unchanged.  And a signature [signPermit] returns is the one the
    account returned for the typed data it was asked to sign. *)
Theorem signPermit_throws_signer_error (tokenAddress : Address)
    (client : PublicClient) (account : SmartAccount)
    (spenderAddress : Address) (permitAmount : Z) (st : Component)
    (e : Thrown) :
  (forall td, signTypedData account td = Err e) ->
  (forall sig,
     resultOf (signPermit tokenAddress client account spenderAddress
                          permitAmount st) <> Ok sig) /\
  (forall token_name token_version token_nonce,
     read_name client tokenAddress = Ok token_name ->
     read_version client tokenAddress = Ok token_version ->
     read_nonces client tokenAddress (sa_address account) = Ok token_nonce ->
     resultOf (signPermit tokenAddress client account spenderAddress
                          permitAmount st) = Err e) /\
  (forall account' sig,
     resultOf (signPermit tokenAddress client account' spenderAddress
                          permitAmount st) = Ok sig ->
     exists td,
       In (SignTypedData (sa_address account') td)
          (requestsOf (signPermit tokenAddress client account' spenderAddress
                                  permitAmount st)) /\
       signTypedData account' td = Ok sig).
Proof.
  intros Hsign. repeat split.
  - intros sig. rewrite signPermit_run.
    destruct (read_name client tokenAddress); [|discriminate].
    destruct (read_version client tokenAddress); [|discriminate].
    destruct (read_nonces client tokenAddress (sa_address account));
      [|discriminate].
    cbn. rewrite Hsign. discriminate.
  - intros nm ver n Hn Hv Hc. rewrite signPermit_run, Hn, Hv, Hc.
    cbn. apply Hsign.
  - intros account' sig. rewrite signPermit_run.
    destruct (read_name client tokenAddress); [|discriminate].
    destruct (read_version client tokenAddress); [|discriminate].
    destruct (read_nonces client tokenAddress (sa_address account'));
      [|discriminate].
    cbn. intros H. eexists. split; [|exact H].
    right. right. right. left. reflexivity.
Qed.

Lemma signPermit_throws_signer_error_witness :
  resultOf (signPermit USDC_ADDRESS
              (createPublicClient world_report arbitrumSepolia)
              report_smartAccount PAYMASTER_V08_ADDRESS 10000000 connected)
  = Err AccountNotFoundError.
Proof.
  refine (proj1 (proj2 (signPermit_throws_signer_error USDC_ADDRESS
           (createPublicClient world_report arbitrumSepolia)
           report_smartAccount PAYMASTER_V08_ADDRESS 10000000 connected
           AccountNotFoundError _)) "USD Coin" "2" 7 _ _ _); reflexivity.
Defined.

(** C1, as the specification words it, fails on the session of the error
    report: the smart account throws for every typed data, and what
    [signPermit] throws is that error, whose class is not
    [SigningUnsupported]. *)
Lemma signPermit_not_SigningUnsupported :
  (forall td, signTypedData report_smartAccount td = Err AccountNotFoundError) /\
  ~ raises "SigningUnsupported"
      (resultOf (signPermit USDC_ADDRESS
                   (createPublicClient world_report arbitrumSepolia)
                   report_smartAccount PAYMASTER_V08_ADDRESS 10000000
                   connected)).
Proof.
  split; [reflexivity|].
  intros [msg H]. vm_compute in H. discriminate H.
Qed.

(** ** Runs of the handlers, case by case *)

(** What [sendTransaction] encodes, for any signature. *)
Lemma paymasterData_encoded (sig : Hex) :
  encodePacked [Tuint 8; Taddress; Tuint 256; Tbytes]
    [Num 0; HexValue USDC_ADDRESS; Num 10000000; HexValue sig]
  = Ok (bigEndian 1 0 ++ USDC_ADDRESS ++ bigEndian 32 10000000 ++ sig)%list.
Proof.
  apply (encodePacked_paymaster_ok 0 USDC_ADDRESS 10000000 sig);
    [lia | reflexivity | lia].
Qed.

(** Unfolds a handler down to the answers of the outside. *)
Ltac run_unfold :=
  cbv [sendTransaction sendTransaction_try sendTransaction_catch setupAccount
       tryFinally tryCatch bind ret await lift
       addLog setLogs clearLogs updateStatus setStatus setLoading
       setAccountInfo signPermit sendUserOperation waitForReceipt
       estimateFeesPerGas getPaymasterData createPublicClient
       recipient amount loading status logs accountInfo walletClient
       isConnected bc_account bc_client bc_getPaymasterData
       bc_estimateFeesPerGas bc_url read_name read_version read_nonces
       client_chain requestsOf stateOf resultOf fst snd];
  cbn [app];
  try change ("https://public.pimlico.io/v2/"
              ++ toString (id arbitrumSepolia) ++ "/rpc")
        with "https://public.pimlico.io/v2/421614/rpc".

(** Splits on the next answer of the outside the run waits for. *)
Ltac run_case :=
  match goal with
  | |- context [match ?x with Ok _ => _ | Err _ => _ end] =>
      lazymatch x with
      | context [match _ with Ok _ => _ | Err _ => _ end] => fail
      | encodePacked _ _ => rewrite paymasterData_encoded
      | _ => destruct x eqn:?
      end
  end.

Ltac run_all := run_unfold; repeat (run_case; run_unfold).

(** Splits on the guard of a handler. *)
Ltac run_guard st :=
  destruct st as [rcp amt ld stat lg ai [wc|] [|]]; run_unfold;
  try destruct (truthy rcp && truthy amt) eqn:?.

(** Goes through the members of a concrete list of requests. *)
Ltac pick_request H :=
  cbn [In] in H;
  repeat (destruct H as [H|H]; [try discriminate H|]); try contradiction.

(** ** The permit amount *)

(** C9. In every invocation of [sendTransaction], whatever the inputs: a
    permit the account is asked to sign has value 10000000 (and the
    paymaster as spender); a user operation that is sent carries a payload
    that encodes mode 0, the USDC address and the amount 10000000; and its
    one call is the USDC [transfer] to the recipient of the amount input
    parsed at six decimals. *)
Theorem permit_amount_is_fixed (w : World) (st : Component) :
  (forall signer td,
     In (SignTypedData signer td) (requestsOf (sendTransaction w st)) ->
     value (message td) = toString 10000000 /\
     value (message td) = "10000000" /\
     spender (message td) = PAYMASTER_V08_ADDRESS) /\
  (forall url uo,
     In (SendUserOperation url uo) (requestsOf (sendTransaction w st)) ->
     exists sig amountParsed,
       encodePacked paymasterDataTypes
         [Num 0; HexValue USDC_ADDRESS; Num 10000000; HexValue sig]
       = Ok (paymasterData (uo_paymaster uo)) /\
       prefix_amount (decodePrefix (paymasterData (uo_paymaster uo)))
       = 10000000 /\
       parseUnits w (amount st) 6 = Ok amountParsed /\
       uo_calls uo
       = [ {| to := USDC_ADDRESS; functionName := "transfer";
              args := [ArgText (recipient st); ArgInt amountParsed] |} ]).
Proof.
  split.
  - intros signer td. run_guard st; try (intros []; fail).
    run_all; intros H; pick_request H.
    all: injection H as _ <-; repeat split; reflexivity.
  - intros url uo. run_guard st; try (intros []; fail).
    run_all; intros H; pick_request H.
    all: injection H as _ <-; cbn [uo_paymaster paymasterData uo_calls].
    all: match goal with
         | Hp : parseUnits _ _ _ = Ok ?z, Hs : signTypedData _ _ = Ok ?sig
           |- _ => exists sig, z; pose proof (paymasterData_encoded sig) as Henc
         end.
    all: repeat split; try assumption.
    all: apply decodePrefix_encodePacked in Henc; rewrite Henc; reflexivity.
Qed.

Lemma permit_amount_is_fixed_witness :
  value (message report_typedData) = toString 10000000 /\
  value (message report_typedData) = "10000000" /\
  spender (message report_typedData) = PAYMASTER_V08_ADDRESS.
Proof.
  apply (proj1 (permit_amount_is_fixed world_report connected)
           report_account report_typedData).
  vm_compute. do 5 right. left. reflexivity.
Defined.

(** ** Fee estimation *)




(** ** The order of the log *)

Ltac close_log_case :=
  first
    [ left; reflexivity
    | right; solve
        [ exists 3%nat; eexists; split; [cbn [In]; tauto | reflexivity]
        | exists 4%nat; eexists; split; [cbn [In]; tauto | reflexivity]
        | exists 6%nat; eexists; split; [cbn [In]; tauto | reflexivity]
        | exists 9%nat; eexists; split; [cbn [In]; tauto | reflexivity]
        | exists 17%nat; eexists; split; [cbn [In]; tauto | reflexivity]
        | exists 19%nat; eexists; split; [cbn [In]; tauto | reflexivity] ] ].

(** C7, as the component has it. A run of [sendTransaction] that passes the
    guard starts the log afresh and appends, in this order, the entries of
    [pipeline_log]; a run that is confirmed leaves all twenty-three, a run
    that fails leaves the first 3, 4, 6, 9, 17 or 19 of them followed by one
    "Transaction failed" entry.  The entry that announces the submission
    comes before the entry of the fee estimation, which the bundler client
    asks for while it submits. *)
Theorem log_follows_the_pipeline (w : World) (st : Component)
    (wc : WalletClient) :
  isConnected st = true ->
  walletClient st = Some wc ->
  truthy (recipient st) = true ->
  truthy (amount st) = true ->
  (exists account uoHash txHash,
     logs (stateOf (sendTransaction w st))
     = pipeline_log (recipient st) (amount st) account uoHash txHash \/
     exists k e,
       In k [3; 4; 6; 9; 17; 19]%nat /\
       logs (stateOf (sendTransaction w st))
       = (firstn k (pipeline_log (recipient st) (amount st)
                                 account uoHash txHash)
          ++ [failed_entry e])%list) /\
  (forall i,
     position estimating_fees_message (logs (stateOf (sendTransaction w st)))
     = Some i ->
     exists j,
       position submitting_message (logs (stateOf (sendTransaction w st)))
       = Some j /\ (j < i)%nat).
Proof.
  intros Hc Hw Hr Ha.
  destruct st as [rcp amt ld stat lg ai wc' conn].
  cbn [isConnected walletClient recipient amount] in *. subst conn wc'.
  split.
  - run_unfold. rewrite Hr, Ha. cbn [andb]. run_all.
    all: do 3 eexists; close_log_case.
    Unshelve. all: exact [].
  - intros i. run_unfold. rewrite Hr, Ha. cbn [andb]. run_all.
    all: intros H; vm_compute in H; try discriminate H.
    all: injection H as <-; exists 14%nat; split; [vm_compute; reflexivity | lia].
Qed.

Lemma log_follows_the_pipeline_witness :
  exists j,
    position submitting_message
      (logs (stateOf (sendTransaction world_ok connected))) = Some j /\
    (j < 16)%nat.
Proof.
  apply (proj2 (log_follows_the_pipeline world_ok connected report_wallet
                  eq_refl eq_refl eq_refl eq_refl) 16%nat).
  vm_compute. reflexivity.
Defined.

(** C7, as the specification words it, fails on a run in which every stage
    answers: the log has twenty-three entries, and the entry of the fee
    estimation comes after the entry that announces the submission, not
    before it. *)
Lemma estimating_fees_logged_after_submitting :
  List.length (logs (stateOf (sendTransaction world_ok connected))) = 23%nat /\
  position submitting_message
    (logs (stateOf (sendTransaction world_ok connected))) = Some 14%nat /\
  position estimating_fees_message
    (logs (stateOf (sendTransaction world_ok connected))) = Some 16%nat /\
  ~ (exists i j,
       position estimating_fees_message
         (logs (stateOf (sendTransaction world_ok connected))) = Some i /\
       position submitting_message
         (logs (stateOf (sendTransaction world_ok connected))) = Some j /\
       (i < j)%nat).
Proof.
  repeat split; try (vm_compute; reflexivity).
  intros (i & j & Hi & Hj & Hlt).
  vm_compute in Hi, Hj. injection Hi as <-. injection Hj as <-. lia.
Qed.

(** ** Failures *)




(** ** Resolving the smart account *)



(** * Further properties of the component *)

(** Unfolds the connection handlers as well. *)
Ltac ui_unfold :=
  cbv [connectWallet handleAccountsChanged setWalletClient setIsConnected
       awaitWallet createWalletClient getAddresses
       connectButton_disabled setupButton_disabled sendButton_disabled];
  run_unfold.

Ltac ui_all := ui_unfold; repeat (run_case; ui_unfold).

(** ** The guards *)

(** X1. When the wallet is not connected, or there is no wallet client, or
    the recipient or the amount is empty, [sendTransaction] sends nothing
    and starts nothing: it sets the status to the error "Please connect
    MetaMask and fill in all fields", appends one error entry to the log as
    it stands, and leaves the rest of the state, the loading flag
    included. *)
Theorem sendTransaction_refuses (w : World) (st : Component) :
  isConnected st = false \/ walletClient st = None \/
  recipient st = "" \/ amount st = "" ->
  sendTransaction w st
  = (Ok tt,
     {| recipient := recipient st; amount := amount st;
        loading := loading st;
        status := Some {| status_type := st_error;
                          status_message :=
                            "Please connect MetaMask and fill in all fields" |};
        logs := (logs st
                 ++ [ {| log_type := error;
                         log_message :=
                           "MetaMask connection and all fields are required" |} ])%list;
        accountInfo := accountInfo st;
        walletClient := walletClient st;
        isConnected := isConnected st |},
     []).
Proof.
  destruct st as [rcp amt ld stat lg ai wc conn].
  cbn [isConnected walletClient recipient amount loading logs accountInfo].
  intros H. unfold sendTransaction.
  cbn [isConnected walletClient recipient amount].
  destruct conn; [|reflexivity].
  destruct wc as [wc|]; [|reflexivity].
  destruct H as [H|[H|[H|H]]]; try discriminate H; subst.
  - reflexivity.
  - destruct rcp; reflexivity.
Qed.

Lemma sendTransaction_refuses_witness :
  requestsOf (sendTransaction world_ok initial) = [] /\
  logs (stateOf (sendTransaction world_ok initial))
  = [ {| log_type := error;
         log_message := "MetaMask connection and all fields are required" |} ].
Proof.
  rewrite (sendTransaction_refuses world_ok initial (or_introl eq_refl)).
  split; reflexivity.
Defined.

(** X2. When the wallet is not connected or there is no wallet client,
    [setupAccount] sends nothing: it sets the status to the error "Please
    connect MetaMask first", appends one error entry to the log as it
    stands, and leaves the rest of the state, the account information
    included. *)
Theorem setupAccount_refuses (w : World) (st : Component) :
  isConnected st = false \/ walletClient st = None ->
  setupAccount w st
  = (Ok tt,
     {| recipient := recipient st; amount := amount st;
        loading := loading st;
        status := Some {| status_type := st_error;
                          status_message := "Please connect MetaMask first" |};
        logs := (logs st
                 ++ [ {| log_type := error;
                         log_message := "MetaMask wallet not connected" |} ])%list;
        accountInfo := accountInfo st;
        walletClient := walletClient st;
        isConnected := isConnected st |},
     []).
Proof.
  destruct st as [rcp amt ld stat lg ai wc conn].
  cbn [isConnected walletClient recipient amount loading logs accountInfo].
  intros H. unfold setupAccount. cbn [isConnected walletClient].
  destruct conn; [|reflexivity].
  destruct wc as [wc|]; [|reflexivity].
  destruct H as [H|H]; discriminate H.
Qed.

Lemma setupAccount_refuses_witness :
  requestsOf (setupAccount world_ok initial) = [] /\
  accountInfo (stateOf (setupAccount world_ok initial)) = None.
Proof.
  rewrite (setupAccount_refuses world_ok initial (or_introl eq_refl)).
  split; reflexivity.
Defined.

(** ** What the handlers always do *)

(** X3. No handler lets an error escape: whatever the outside answers and
    whatever the state, [connectWallet], [setupAccount] and
    [sendTransaction] end normally. *)
Theorem handlers_never_throw (w : World) (window_ethereum : option Ethereum)
    (accounts : list string) (st : Component) :
  resultOf (connectWallet window_ethereum st) = Ok tt /\
  resultOf (setupAccount w st) = Ok tt /\
  resultOf (sendTransaction w st) = Ok tt /\
  resultOf (handleAccountsChanged accounts st) = Ok tt.
Proof.
  split; [|split; [|split]].
  - destruct window_ethereum as [eth|]; ui_all; reflexivity.
  - run_guard st; try reflexivity. all: run_all; reflexivity.
  - run_guard st; try reflexivity. all: run_all; reflexivity.
  - ui_unfold. destruct (Nat.eqb (List.length accounts) 0); reflexivity.
Qed.

(** X4. A handler that starts work ends with the loading flag reset,
    whether the work succeeded or threw: [connectWallet] when the extension
    is there, [setupAccount] and [sendTransaction] when their guard
    passes. *)
Theorem loading_is_reset (w : World) (ethereum : Ethereum) (st : Component)
    (wc : WalletClient) :
  loading (stateOf (connectWallet (Some ethereum) st)) = false /\
  (isConnected st = true -> walletClient st = Some wc ->
   loading (stateOf (setupAccount w st)) = false /\
   (truthy (recipient st) = true -> truthy (amount st) = true ->
    loading (stateOf (sendTransaction w st)) = false)).
Proof.
  split.
  - ui_all; reflexivity.
  - destruct st as [rcp amt ld stat lg ai wc' conn].
    cbn [isConnected walletClient recipient amount].
    intros -> ->. split.
    + run_all; reflexivity.
    + intros Hr Ha. run_unfold. rewrite Hr, Ha. cbn [andb].
      run_all; reflexivity.
Qed.

Lemma loading_is_reset_witness :
  loading (stateOf (setupAccount world_report connected)) = false /\
  (truthy (recipient connected) = true -> truthy (amount connected) = true ->
   loading (stateOf (sendTransaction world_report connected)) = false).
Proof.
  apply (proj2 (loading_is_reset world_report report_ethereum connected
                  report_wallet)); reflexivity.
Defined.

(** X5. [sendTransaction] never touches the inputs, the connection or the
    account information; [setupAccount] never touches the inputs or the
    connection. *)
Theorem handlers_keep_inputs_and_connection (w : World) (st : Component) :
  (let st' := stateOf (sendTransaction w st) in
   recipient st' = recipient st /\ amount st' = amount st /\
   accountInfo st' = accountInfo st /\
   walletClient st' = walletClient st /\ isConnected st' = isConnected st) /\
  (let st' := stateOf (setupAccount w st) in
   recipient st' = recipient st /\ amount st' = amount st /\
   walletClient st' = walletClient st /\ isConnected st' = isConnected st).
Proof.
  split; cbv zeta.
  - remember (stateOf (sendTransaction w st)) as st' eqn:E. revert E.
    run_guard st; try (intros ->; repeat split; reflexivity).
    all: run_all; intros ->; repeat split; reflexivity.
  - remember (stateOf (setupAccount w st)) as st' eqn:E. revert E.
    run_guard st; try (intros ->; repeat split; reflexivity).
    all: run_all; intros ->; repeat split; reflexivity.
Qed.

(** ** Setting up the account *)



(** ** Reads that fail *)



(** ** The permit and the operation of one run *)

Lemma paymasterData_prefix (sig : Hex) :
  decodePrefix (bigEndian 1 0 ++ USDC_ADDRESS ++ bigEndian 32 10000000 ++ sig)%list
  = {| prefix_mode := 0; prefix_token := USDC_ADDRESS;
       prefix_amount := 10000000 |}.
Proof.
  apply (decodePrefix_encodePacked 0 USDC_ADDRESS 10000000 sig).
  apply paymasterData_encoded.
Qed.

(** X8. In a run of [sendTransaction], the permit that is signed and the
    user operation that is sent agree: the owner of the permit is the
    sender of the operation (the resolved smart account, which is also the
    account asked to sign); the spender of the permit is the paymaster of
    the operation; and the token whose permit is signed is the token named
    in the paymaster payload and the target of the operation's one call. *)
Theorem permit_matches_operation (w : World) (st : Component)
    (signer : Address) (td : TypedData) (url : string) (uo : UserOperation) :
  In (SignTypedData signer td) (requestsOf (sendTransaction w st)) ->
  In (SendUserOperation url uo) (requestsOf (sendTransaction w st)) ->
  signer = uo_sender uo /\
  owner (message td) = uo_sender uo /\
  spender (message td) = paymaster (uo_paymaster uo) /\
  verifyingContract (domain td)
  = prefix_token (decodePrefix (paymasterData (uo_paymaster uo))) /\
  map to (uo_calls uo) = [verifyingContract (domain td)] /\
  value (message td)
  = toString (prefix_amount (decodePrefix (paymasterData (uo_paymaster uo)))).
Proof.
  run_guard st; try (intros []; fail).
  run_all; intros H1 H2; pick_request H1; pick_request H2.
  all: injection H1 as <- <-; injection H2 as <- <-.
  all: cbv [uo_sender uo_paymaster paymaster paymasterData uo_calls message
            domain owner spender value verifyingContract map to].
  all: match goal with
       | Hs : signTypedData _ _ = Ok ?sig |- context [decodePrefix ?x] =>
           change (decodePrefix x)
             with (decodePrefix (bigEndian 1 0 ++ USDC_ADDRESS
                                 ++ bigEndian 32 10000000 ++ sig)%list);
           rewrite (paymasterData_prefix sig)
       end.
  all: repeat split; reflexivity.
Qed.

Lemma permit_matches_operation_witness :
  owner (message report_typedData) = report_account /\
  spender (message report_typedData) = PAYMASTER_V08_ADDRESS.
Proof.
  destruct (permit_matches_operation world_ok connected report_account
              report_typedData pimlico_url
              {| uo_sender := report_account;
                 uo_calls := [ {| to := USDC_ADDRESS;
                                  functionName := "transfer";
                                  args := [ArgText (recipient connected);
                                           ArgInt 100000] |} ];
                 uo_fees := {| maxFeePerGas := 200000000;
                               maxPriorityFeePerGas := 100000 |};
                 uo_paymaster :=
                   {| paymaster := PAYMASTER_V08_ADDRESS;
                      paymasterData :=
                        (bigEndian 1 0 ++ USDC_ADDRESS
                         ++ bigEndian 32 10000000 ++ some_signature)%list;
                      paymasterVerificationGasLimit := 200000;
                      paymasterPostOpGasLimit := 15000;
                      isFinal := true |} |})
    as (_ & Ho & Hs & _).
  - vm_compute. do 5 right. left. reflexivity.
  - vm_compute. do 7 right. left. reflexivity.
  - split; [exact Ho | exact Hs].
Defined.

(** X9. A user operation that [sendTransaction] sends names the paymaster
    [PAYMASTER_V08_ADDRESS] with verification gas limit 200000, post-op gas
    limit 15000 and final data; and the bytes of its payload after the
    53-byte prefix are exactly the signature the resolved account returned
    for the permit of this run. *)
Theorem payload_carries_the_signature (w : World) (st : Component)
    (url : string) (uo : UserOperation) :
  In (SendUserOperation url uo) (requestsOf (sendTransaction w st)) ->
  paymaster (uo_paymaster uo) = PAYMASTER_V08_ADDRESS /\
  paymasterVerificationGasLimit (uo_paymaster uo) = 200000 /\
  paymasterPostOpGasLimit (uo_paymaster uo) = 15000 /\
  isFinal (uo_paymaster uo) = true /\
  exists p account td sig,
    In (ToMetaMaskSmartAccount p) (requestsOf (sendTransaction w st)) /\
    toMetaMaskSmartAccount w p = Ok account /\
    In (SignTypedData (sa_address account) td)
       (requestsOf (sendTransaction w st)) /\
    signTypedData account td = Ok sig /\
    skipn 53 (paymasterData (uo_paymaster uo)) = sig /\
    size (paymasterData (uo_paymaster uo)) = (53 + size sig)%nat.
Proof.
  run_guard st; try (intros []; fail).
  run_all; intros H; pick_request H.
  all: injection H as <- <-.
  all: cbn [uo_paymaster paymaster paymasterData paymasterVerificationGasLimit
            paymasterPostOpGasLimit isFinal].
  all: do 4 (split; [reflexivity|]).
  all: match goal with
       | Hr : toMetaMaskSmartAccount _ ?p = Ok ?a,
         Hs : signTypedData ?a ?td = Ok ?sig |- _ =>
           exists p, a, td, sig
       end.
  all: split; [cbn [In]; tauto|].
  all: split; [assumption|].
  all: split; [cbn [In]; tauto|].
  all: split; [assumption|].
  all: split; [reflexivity|].
  all: reflexivity.
Qed.

Lemma payload_carries_the_signature_witness :
  paymaster
    (uo_paymaster
       {| uo_sender := report_account;
          uo_calls := [ {| to := USDC_ADDRESS; functionName := "transfer";
                           args := [ArgText (recipient connected);
                                    ArgInt 100000] |} ];
          uo_fees := {| maxFeePerGas := 200000000;
                        maxPriorityFeePerGas := 100000 |};
          uo_paymaster :=
            {| paymaster := PAYMASTER_V08_ADDRESS;
               paymasterData :=
                 (bigEndian 1 0 ++ USDC_ADDRESS
                  ++ bigEndian 32 10000000 ++ some_signature)%list;
               paymasterVerificationGasLimit := 200000;
               paymasterPostOpGasLimit := 15000;
               isFinal := true |} |})
  = PAYMASTER_V08_ADDRESS.
Proof.
  apply (payload_carries_the_signature world_ok connected pimlico_url).
  vm_compute. do 7 right. left. reflexivity.
Defined.

(** ** How a run ends *)

(** X10. A run of [sendTransaction] that passes the guard never leaves the
    status at "info": it ends either with the error status of the [catch]
    block, or with the success status, and then only after the bundler
    answered the receipt of the operation, whose transaction hash the
    status shows. *)
Theorem success_needs_a_receipt (w : World) (st : Component)
    (wc : WalletClient) :
  isConnected st = true ->
  walletClient st = Some wc ->
  truthy (recipient st) = true ->
  truthy (amount st) = true ->
  (exists e,
     status (stateOf (sendTransaction w st)) = Some (failed_status e)) \/
  (exists hash receipt,
     In (WaitForUserOperationReceipt pimlico_url hash)
        (requestsOf (sendTransaction w st)) /\
     waitForUserOperationReceipt w pimlico_url hash = Ok receipt /\
     status (stateOf (sendTransaction w st))
     = Some {| status_type := st_success;
               status_message :=
                 "Transaction successful! Hash: "
                 ++ showHex (transactionHash (uo_receipt receipt)) |}).
Proof.
  destruct st as [rcp amt ld stat lg ai wc' conn].
  cbn [isConnected walletClient recipient amount].
  intros -> -> Hr Ha.
  remember (sendTransaction w _) as run eqn:E. revert E.
  run_unfold. rewrite Hr, Ha. cbn [andb].
  run_all; intros ->; cbv [status stateOf requestsOf fst snd].
  all: try (left; eexists; reflexivity).
  right. do 2 eexists. split; [|split; [eassumption|reflexivity]].
  cbn [In]. unfold pimlico_url. tauto.
Qed.

Lemma success_needs_a_receipt_witness :
  status (stateOf (sendTransaction world_ok connected))
  = Some {| status_type := st_success;
            status_message :=
              "Transaction successful! Hash: " ++ showHex some_txHash |}.
Proof.
  destruct (success_needs_a_receipt world_ok connected report_wallet
              eq_refl eq_refl eq_refl eq_refl)
    as [(e & H)|(hash & receipt & _ & Hr & H)].
  - vm_compute in H. discriminate H.
  - injection Hr as <-. exact H.
Defined.


(** X12. Encoding the payload never stops a run: once the resolved account
    has returned a signature for the permit, whatever its bytes,
    [sendTransaction] goes on to ask the bundler for the gas prices. *)
Theorem signed_permit_reaches_the_bundler (w : World) (st : Component)
    (p : SmartAccountParameters) (account : SmartAccount)
    (td : TypedData) (sig : Hex) :
  In (ToMetaMaskSmartAccount p) (requestsOf (sendTransaction w st)) ->
  toMetaMaskSmartAccount w p = Ok account ->
  In (SignTypedData (sa_address account) td)
     (requestsOf (sendTransaction w st)) ->
  signTypedData account td = Ok sig ->
  In (GetUserOperationGasPrice pimlico_url)
     (requestsOf (sendTransaction w st)).
Proof.
  run_guard st; try (intros []; fail).
  run_all; intros H1 E1 H2 E2.
  all: try (cbn [In]; unfold pimlico_url; tauto).
  all: pick_request H1; injection H1 as <-.
  all: pick_request H2; injection H2 as _ <-.
  all: cbn [nth_error] in *.
  all: match goal with
       | Hr : toMetaMaskSmartAccount _ ?q = Ok ?b,
         E : toMetaMaskSmartAccount _ ?q = Ok ?c |- _ =>
           tryif constr_eq b c then fail
           else (assert (c = b) by congruence; subst c)
       end.
  all: match goal with
       | Hs : signTypedData ?a ?t = Err _, E : signTypedData ?a ?t' = Ok _
         |- _ => change t' with t in E; congruence
       end.
Qed.

Lemma signed_permit_reaches_the_bundler_witness :
  In (GetUserOperationGasPrice pimlico_url)
     (requestsOf (sendTransaction world_no_bundler connected)).
Proof.
  apply (signed_permit_reaches_the_bundler world_no_bundler connected
           (report_parameters world_no_bundler)
           {| sa_address := report_account;
              signTypedData := fun _ => Ok some_signature |}
           report_typedData some_signature).
  - vm_compute. right. left. reflexivity.
  - reflexivity.
  - vm_compute. do 5 right. left. reflexivity.
  - reflexivity.
Defined.

(** ** Connecting the wallet *)

(** X13. [connectWallet] with the extension present either connects or
    reports.  When the extension grants the accounts and lists its
    addresses, the component becomes connected, with a wallet client over
    the extension, the success status "MetaMask connected successfully",
    and two more log entries, the second printing the first address.  When
    one of the two requests throws, the connection flag and the wallet
    client stay as they were, the status is the error "Connection failed:
    <message>" and the last entry "Failed to connect: <message>".  Either
    way the earlier log entries, the inputs and the account information
    are kept. *)
Theorem connectWallet_outcome (ethereum : Ethereum) (st : Component) :
  (exists accounts addresses,
     eth_requestAccounts ethereum = Ok accounts /\
     eth_accounts ethereum = Ok addresses /\
     connectWallet (Some ethereum) st
     = (Ok tt,
        {| recipient := recipient st; amount := amount st; loading := false;
           status := Some {| status_type := st_success;
                             status_message :=
                               "MetaMask connected successfully" |};
           logs := (logs st
                    ++ [ {| log_type := info;
                            log_message := "🦊 Connecting to MetaMask..." |};
                         {| log_type := success;
                            log_message :=
                              "✅ Connected to MetaMask: "
                              ++ showOwner (nth_error addresses 0) |} ])%list;
           accountInfo := accountInfo st;
           walletClient := Some (createWalletClient arbitrumSepolia ethereum);
           isConnected := true |},
        [GetAddresses])) \/
  (exists e,
     (eth_requestAccounts ethereum = Err e \/ eth_accounts ethereum = Err e) /\
     stateOf (connectWallet (Some ethereum) st)
     = {| recipient := recipient st; amount := amount st; loading := false;
          status := Some {| status_type := st_error;
                            status_message :=
                              "Connection failed: " ++ errorMsg e |};
          logs := (logs st
                   ++ [ {| log_type := info;
                           log_message := "🦊 Connecting to MetaMask..." |};
                        {| log_type := error;
                           log_message :=
                             "❌ Failed to connect: " ++ errorMsg e |} ])%list;
          accountInfo := accountInfo st;
          walletClient := walletClient st;
          isConnected := isConnected st |}).
Proof.
  destruct st as [rcp amt ld stat lg ai wc conn].
  ui_unfold.
  destruct (eth_requestAccounts ethereum) as [accounts|e] eqn:Hr; ui_unfold.
  - destruct (eth_accounts ethereum) as [addresses|e] eqn:Ha; ui_unfold.
    + left. exists accounts, addresses.
      rewrite <- !app_assoc. repeat split; reflexivity.
    + right. exists e. rewrite <- !app_assoc. split; [tauto|reflexivity].
  - right. exists e. rewrite <- !app_assoc. split; [tauto|reflexivity].
Qed.

(** Without the extension, [connectWallet] does not start: it sets the
    status to the error "MetaMask is not installed", appends one error
    entry, sends nothing, and leaves the loading flag, the connection and
    everything else as they were. *)
Theorem connectWallet_without_extension (st : Component) :
  connectWallet None st
  = (Ok tt,
     {| recipient := recipient st; amount := amount st;
        loading := loading st;
        status := Some {| status_type := st_error;
                          status_message := "MetaMask is not installed" |};
        logs := (logs st
                 ++ [ {| log_type := error;
                         log_message :=
                           "❌ MetaMask not found. Please install MetaMask." |} ])%list;
        accountInfo := accountInfo st;
        walletClient := walletClient st;
        isConnected := isConnected st |},
     []).
Proof. destruct st. reflexivity. Qed.

(** X14. After a connection that succeeded, [setupAccount] passes its guard
    and resolves the account of the first address the extension lists
    (the answer to the access request itself is not used), signing through
    the wallet client made over the extension.  The extension may list no
    address at all: the connection succeeds all the same and the account
    is then resolved for an undefined owner. *)
Theorem setupAccount_after_connectWallet (w : World) (ethereum : Ethereum)
    (st : Component) (accounts addresses : list Address) :
  eth_requestAccounts ethereum = Ok accounts ->
  eth_accounts ethereum = Ok addresses ->
  isConnected (stateOf (connectWallet (Some ethereum) st)) = true /\
  requestsOf (setupAccount w (stateOf (connectWallet (Some ethereum) st)))
  = [GetAddresses;
     ToMetaMaskSmartAccount
       {| p_client := createPublicClient w arbitrumSepolia;
          p_implementation := Hybrid;
          p_deployParams := {| dp_owner := nth_error addresses 0;
                               dp_keyIds := []; dp_xValues := [];
                               dp_yValues := [] |};
          p_deploySalt := hex "";
          p_signatory := createWalletClient arbitrumSepolia ethereum |}] /\
  (addresses = [] ->
   exists p,
     In (ToMetaMaskSmartAccount p)
        (requestsOf (setupAccount w (stateOf (connectWallet (Some ethereum) st)))) /\
     dp_owner (p_deployParams p) = None).
Proof.
  intros Hr Ha.
  destruct st as [rcp amt ld stat lg ai wc conn].
  ui_unfold. rewrite Hr. ui_unfold. rewrite Ha. ui_unfold.
  split; [reflexivity|].
  split.
  - run_all; reflexivity.
  - intros ->. run_all; eexists; (split; [cbn [In]; tauto|reflexivity]).
Qed.

Lemma setupAccount_after_connectWallet_witness :
  exists p,
    In (ToMetaMaskSmartAccount p)
       (requestsOf (setupAccount world_ok
                      (stateOf (connectWallet (Some empty_ethereum) initial)))) /\
    dp_owner (p_deployParams p) = None.
Proof.
  apply (proj2 (proj2 (setupAccount_after_connectWallet world_ok empty_ethereum
                         initial [] [] eq_refl eq_refl)) eq_refl).
Defined.

(** ** Account changes *)

(** X15. The listener of [accountsChanged] reacts to the empty list only.
    With no account left it disconnects: the connection flag, the wallet
    client and the account information are dropped (status, log and inputs
    stay), after which [setupAccount] and [sendTransaction] send nothing.
    With any account listed it changes nothing at all: a switch to another
    account leaves the wallet client and the account information of the
    previous one in place. *)
Theorem handleAccountsChanged_disconnects_on_empty (w : World)
    (accounts : list string) (st : Component) :
  (accounts <> [] -> handleAccountsChanged accounts st = (Ok tt, st, [])) /\
  (accounts = [] ->
   stateOf (handleAccountsChanged accounts st)
   = {| recipient := recipient st; amount := amount st;
        loading := loading st; status := status st; logs := logs st;
        accountInfo := None; walletClient := None; isConnected := false |} /\
   requestsOf (setupAccount w (stateOf (handleAccountsChanged accounts st)))
   = [] /\
   requestsOf (sendTransaction w (stateOf (handleAccountsChanged accounts st)))
   = []).
Proof.
  split.
  - intros H. destruct accounts as [|a rest]; [contradiction|]. reflexivity.
  - intros ->. destruct st. split; [reflexivity|]. split; reflexivity.
Qed.

Lemma handleAccountsChanged_disconnects_on_empty_witness :
  handleAccountsChanged ["0x2514844F312c02Ae3C9d4fEb40db4eC8830b6844"]
    connected = (Ok tt, connected, []) /\
  requestsOf (sendTransaction world_ok
                (stateOf (handleAccountsChanged [] connected))) = [].
Proof.
  split.
  - apply (proj1 (handleAccountsChanged_disconnects_on_empty world_ok
                    ["0x2514844F312c02Ae3C9d4fEb40db4eC8830b6844"] connected)).
    discriminate.
  - apply (proj2 (handleAccountsChanged_disconnects_on_empty world_ok
                    [] connected) eq_refl).
Defined.

(** ** What the handlers keep *)



(** ** The buttons *)

(** X17. Starting connected and without account information, the Send
    Transaction button is enabled after [setupAccount] exactly when the
    wallet listed its addresses and the toolkit resolved the account. *)
Theorem send_button_needs_a_resolved_account (w : World) (st : Component)
    (wc : WalletClient) :
  isConnected st = true ->
  walletClient st = Some wc ->
  accountInfo st = None ->
  sendButton_disabled (stateOf (setupAccount w st)) = false <->
  exists addresses account,
    getAddresses wc = Ok addresses /\
    toMetaMaskSmartAccount w
      {| p_client := createPublicClient w arbitrumSepolia;
         p_implementation := Hybrid;
         p_deployParams := {| dp_owner := nth_error addresses 0;
                              dp_keyIds := []; dp_xValues := [];
                              dp_yValues := [] |};
         p_deploySalt := hex "";
         p_signatory := wc |} = Ok account.
Proof.
  destruct st as [rcp amt ld stat lg ai wc' conn].
  cbn [isConnected walletClient accountInfo]. intros -> -> ->.
  unfold sendButton_disabled. run_all.
  1: { split; [intros _; eauto | reflexivity]. }
  all: split; [discriminate|]; intros (addresses & account & Ha & Hr).
  all: first [discriminate Ha
             | injection Ha as <-; cbn [nth_error] in *; congruence].
Qed.

Lemma send_button_needs_a_resolved_account_witness :
  sendButton_disabled (stateOf (setupAccount world_ok connected)) = false.
Proof.
  apply (send_button_needs_a_resolved_account world_ok connected report_wallet
           eq_refl eq_refl eq_refl).
  exists [report_owner],
    {| sa_address := report_account;
       signTypedData := fun _ => Ok some_signature |}.
  split; reflexivity.
Defined.

(** X18. In a coherent component, a click on an enabled button starts the
    handler: with the Setup Account button enabled, [setupAccount] passes
    its guard and asks the wallet for its addresses; with the Send
    Transaction button enabled and both inputs filled, [sendTransaction]
    does.  The guard of [sendTransaction] itself does not ask for account
    information; it is the button that does. *)
Theorem enabled_buttons_start_the_handlers (w : World) (st : Component) :
  coherent st ->
  (setupButton_disabled st = false ->
   exists rest, requestsOf (setupAccount w st) = GetAddresses :: rest) /\
  (sendButton_disabled st = false ->
   truthy (recipient st) = true -> truthy (amount st) = true ->
   exists rest, requestsOf (sendTransaction w st) = GetAddresses :: rest) /\
  (isConnected st = true ->
   truthy (recipient st) = true -> truthy (amount st) = true ->
   exists rest, requestsOf (sendTransaction w st) = GetAddresses :: rest).
Proof.
  destruct st as [rcp amt ld stat lg ai wc conn].
  unfold coherent, setupButton_disabled, sendButton_disabled.
  cbn [isConnected walletClient accountInfo loading recipient amount].
  intros [Hc _].
  assert (Hwc : conn = true -> exists c, wc = Some c).
  { intros Hconn. destruct wc as [c|]; [eauto|].
    apply Hc in Hconn. now elim Hconn. }
  split; [|split].
  - intros Hb. destruct ld, conn; try discriminate Hb.
    destruct (Hwc eq_refl) as [c ->].
    run_all; eexists; reflexivity.
  - intros Hb Hr Ha. destruct ld, conn; try discriminate Hb.
    destruct (Hwc eq_refl) as [c ->].
    run_unfold. rewrite Hr, Ha. cbn [andb].
    run_all; eexists; reflexivity.
  - intros Hconn Hr Ha. subst conn.
    destruct (Hwc eq_refl) as [c ->].
    run_unfold. rewrite Hr, Ha. cbn [andb].
    run_all; eexists; reflexivity.
Qed.

Lemma enabled_buttons_start_the_handlers_witness :
  exists rest, requestsOf (sendTransaction world_ok ready) = GetAddresses :: rest.
Proof.
  assert (Hc : coherent ready).
  { split; [split; [discriminate|reflexivity]|reflexivity]. }
  apply (proj1 (proj2 (enabled_buttons_start_the_handlers world_ok ready Hc)));
    reflexivity.
Defined.

(** ** What a run depends on *)

(** X19. A run of [sendTransaction] that passes the guard depends on the
    inputs and the wallet client only: two components with the same
    recipient, amount and wallet client send the same requests and end with
    the same log and the same status, whatever their earlier log, status,
    loading flag and recorded account information.  In particular the
    account recorded by [setupAccount] is not used: the account is resolved
    again. *)
Theorem sendTransaction_starts_afresh (w : World) (st1 st2 : Component)
    (wc : WalletClient) :
  isConnected st1 = true -> isConnected st2 = true ->
  walletClient st1 = Some wc -> walletClient st2 = Some wc ->
  recipient st1 = recipient st2 -> amount st1 = amount st2 ->
  truthy (recipient st1) = true -> truthy (amount st1) = true ->
  requestsOf (sendTransaction w st1) = requestsOf (sendTransaction w st2) /\
  logs (stateOf (sendTransaction w st1)) = logs (stateOf (sendTransaction w st2)) /\
  status (stateOf (sendTransaction w st1))
  = status (stateOf (sendTransaction w st2)).
Proof.
  destruct st1 as [rcp1 amt1 ld1 stat1 lg1 ai1 wc1 conn1].
  destruct st2 as [rcp2 amt2 ld2 stat2 lg2 ai2 wc2 conn2].
  cbn [isConnected walletClient recipient amount].
  intros -> -> -> -> <- <- Hr Ha.
  remember (sendTransaction w {| recipient := rcp1; amount := amt1;
              loading := ld1; status := stat1; logs := lg1;
              accountInfo := ai1; walletClient := Some wc;
              isConnected := true |}) as run1 eqn:E1.
  remember (sendTransaction w {| recipient := rcp1; amount := amt1;
              loading := ld2; status := stat2; logs := lg2;
              accountInfo := ai2; walletClient := Some wc;
              isConnected := true |}) as run2 eqn:E2.
  revert E1 E2. run_unfold. rewrite Hr, Ha. cbn [andb].
  run_all; intros -> ->; repeat split; reflexivity.
Qed.

Lemma sendTransaction_starts_afresh_witness :
  requestsOf (sendTransaction world_ok connected)
  = requestsOf (sendTransaction world_ok ready) /\
  logs (stateOf (sendTransaction world_ok connected))
  = logs (stateOf (sendTransaction world_ok ready)) /\
  status (stateOf (sendTransaction world_ok connected))
  = status (stateOf (sendTransaction world_ok ready)).
Proof.
  apply (sendTransaction_starts_afresh world_ok connected ready report_wallet);
    reflexivity.
Defined.
